(** * solana-exporter: the scrape collector of cmd/solana_exporter/exporter.go

    A shallow embedding of [SolanaCollector] and its six sub-collections,
    with the effects a scrape has (upstream queries, log lines, metrics sent
    on the channel, process exit through [logger.Fatalf]) recorded in a
    trace, followed by the properties of one scrape. *)

From Stdlib Require Import ZArith QArith String List Lia.
From stdpp Require Import base list strings gmap.

Open Scope string_scope.
Open Scope list_scope.
Open Scope Z_scope.

(** ** Go values *)

(** The types of package [rpc] that exporter.go uses. *)
Module rpc.

(** One scalar of a JSON object, enough for the secondary payload of an
    RPC error. *)
Inductive JSONValue : Type :=
| JNull
| JBool (b : bool)
| JNumber (n : Z)
| JString (s : string).

(** The payload [RPCError.Data]: the members of a JSON object, in order. *)
Definition Payload : Type := list (string * JSONValue).

(** [rpc.RPCError], with the two fields exporter.go reads.  [Data] is
    [None] for Go's [nil]. *)
Record RPCError : Type := {
  Method : string;
  Data : option Payload
}.

(** [rpc.NodeUnhealthyErrorData]; [NumSlotsBehind] is an int64. *)
Record NodeUnhealthyErrorData : Type := {
  NumSlotsBehind : Z
}.

(** One entry of the vote-accounts response; the numeric fields are
    64-bit integers. *)
Record VoteAccount : Type := {
  VotePubkey : string;
  NodePubkey : string;
  ActivatedStake : Z;
  LastVote : Z;
  RootSlot : Z
}.

(** The vote-accounts response.  Both slices are fields of one decoded
    response and do not share storage, so [append(Current, Delinquent...)]
    is their concatenation and leaves both unchanged. *)
Record VoteAccounts : Type := {
  Current : list VoteAccount;
  Delinquent : list VoteAccount
}.

Inductive Commitment : Type :=
| CommitmentFinalized
| CommitmentConfirmed
| CommitmentProcessed.

End rpc.
Export rpc.

#[global] Instance VoteAccount_eq_dec : EqDecision VoteAccount.
Proof. solve_decision. Defined.

(** A Go [error] value.  [errors.As] walks the chain of wrapped errors, so
    the chain is part of the model: a plain error (transport failures and
    the like), a [*rpc.RPCError], or an error wrapping another one. *)
Inductive GoError : Type :=
| PlainError (msg : string)
| RpcError (e : RPCError)
| WrapError (msg : string) (inner : GoError).

(** [errors.As(err, &rpcError)] with [rpcError : *rpc.RPCError]: the first
    error of the chain that is an RPC error, if any. *)
Fixpoint errors_As (err : GoError) : option RPCError :=
  match err with
  | PlainError _ => None
  | RpcError e => Some e
  | WrapError _ inner => errors_As inner
  end.

(** A Go call returning [(value, error)], of which the caller reads the
    value only when the error is nil. *)
Inductive Result (A : Type) : Type :=
| Ok (a : A)
| Err (err : GoError).
Arguments Ok {A} a.
Arguments Err {A} err.

(** *** float64

    Every float64 the collector builds itself is the conversion of a 64-bit
    integer, whose value is again an integer: the model keeps the exact
    value of the double, as a rational, and writes the rounding of the
    conversion out (53-bit significand, round to nearest, ties to even). *)
Definition float64 : Type := Q.

Definition round_binary64 (z : Z) : Z :=
  let a := Z.abs z in
  let sh := Z.log2 a - 52 in
  if sh <=? 0 then z
  else
    let q := Z.shiftr a sh in
    let r := Z.land a (Z.ones sh) in
    let half := Z.shiftl 1 (sh - 1) in
    let q' := if (half <? r) || ((r =? half) && Z.odd q) then q + 1 else q in
    Z.sgn z * Z.shiftl q' sh.

(** [float64(z)] for an integer [z]. *)
Definition float64_of_int (z : Z) : float64 := inject_Z (round_binary64 z).

(** [len(s)] as a Go [int]. *)
Definition len {A : Type} (s : list A) : Z := Z.of_nat (length s).

(** ** The upstream provider *)

(** The interface [rpc.Provider], with the methods a scrape calls.  A
    client value stands for the state of the upstream node during one
    scrape; [GetVoteAccounts] takes the commitment and the optional vote key
    to filter by, and [GetHealth] returns only the error the collector looks
    at. *)
Class Provider (P : Type) : Type := {
  GetVoteAccounts : P → Commitment → option string → Result VoteAccounts;
  GetVersion : P → Result string;
  GetHealth : P → option GoError;
  GetMinimumLedgerSlot : P → Result Z;
  GetFirstAvailableBlock : P → Result Z
}.

(** ** Metric descriptors and metrics *)

Definition SkipStatusLabel := "status".
Definition StateLabel := "state".
Definition NodekeyLabel := "nodekey".
Definition VotekeyLabel := "votekey".
Definition VersionLabel := "version".
Definition AddressLabel := "address".
Definition EpochLabel := "epoch".
Definition IdentityLabel := "identity".

Definition StatusSkipped := "skipped".
Definition StatusValid := "valid".

Definition StateCurrent := "current".
Definition StateDelinquent := "delinquent".

(** Modelled from the spec: [GaugeDesc] and its constructor [NewGaugeDesc]
    are declared outside exporter.go.  A descriptor is a metric family's
    name, help text and ordered label names. *)
Record GaugeDesc : Type := NewGaugeDesc {
  Name : string;
  Help : string;
  VariableLabels : list string
}.

(** A [prometheus.Metric]: a gauge sample of a family, or the invalid
    metric that stands for a family whose collection failed and carries the
    error. *)
#[global] Instance GaugeDesc_eq_dec : EqDecision GaugeDesc.
Proof. solve_decision. Defined.

Inductive Metric : Type :=
| ConstMetric (d : GaugeDesc) (value : float64) (labelValues : list string)
| InvalidMetric (d : GaugeDesc) (err : GoError).

Definition Desc (m : Metric) : GaugeDesc :=
  match m with
  | ConstMetric d _ _ => d
  | InvalidMetric d _ => d
  end.

(** The name of the family a metric belongs to. *)
Definition family (m : Metric) : string := Name (Desc m).

Definition is_invalid (m : Metric) : bool :=
  match m with
  | ConstMetric _ _ _ => false
  | InvalidMetric _ _ => true
  end.

(** The value and the label values of a gauge sample. *)
Definition value_of (m : Metric) : option float64 :=
  match m with
  | ConstMetric _ v _ => Some v
  | InvalidMetric _ _ => None
  end.

(** The sum of the values of the gauge samples among [ms]. *)
Definition sum_of_values (ms : list Metric) : Q :=
  foldr (λ m acc, (default 0 (value_of m) + acc)%Q) 0%Q ms.

Definition labels_of (m : Metric) : option (list string) :=
  match m with
  | ConstMetric _ _ l => Some l
  | InvalidMetric _ _ => None
  end.

(** ** Effects of a scrape *)

Inductive Query : Type :=
| QGetVoteAccounts (commitment : Commitment) (votePubkey : option string)
| QGetVersion
| QFetchBalances (addresses : list string)
| QGetHealth
| QGetMinimumLedgerSlot
| QGetFirstAvailableBlock.

Inductive Level : Type := ErrorLevel | FatalLevel.

Inductive LogArg : Type :=
| ArgError (err : GoError)
| ArgString (s : string).

(** What a scrape does to the outside, in order. *)
Inductive Event : Type :=
| EvQuery (q : Query)
| EvUnpack (e : RPCError)
| EvLog (lvl : Level) (format : string) (args : list LogArg)
| EvSend (m : Metric).

(** A computation either returns or ends the process ([os.Exit] inside
    [logger.Fatalf]); in both cases it leaves the trace of what it did. *)
Inductive Outcome (A : Type) : Type :=
| Returned (a : A)
| Exited.
Arguments Returned {A} a.
Arguments Exited {A}.

Definition M (A : Type) : Type := (list Event * Outcome A)%type.

Definition trace {A : Type} (m : M A) : list Event := fst m.
Definition outcome {A : Type} (m : M A) : Outcome A := snd m.

Definition ret {A : Type} (a : A) : M A := ([], Returned a).

Definition bind {A B : Type} (m : M A) (k : A → M B) : M B :=
  match m with
  | (t, Returned a) => let '(t', r) := k a in (t ++ t', r)
  | (t, Exited) => (t, Exited)
  end.

#[global] Instance M_ret : MRet M := @ret.
#[global] Instance M_bind : MBind M := λ A B k m, bind m k.

Definition event (e : Event) : M unit := ([e], Returned tt).

(** An upstream call: the query goes on the trace, the response comes back. *)
Definition query {A : Type} (q : Query) (response : A) : M A :=
  ([EvQuery q], Returned response).

(** [logger.Errorf]. *)
Definition Errorf (format : string) (args : list LogArg) : M unit :=
  event (EvLog ErrorLevel format args).

(** [logger.Fatalf]: writes the line, then exits the process. *)
Definition Fatalf {A : Type} (format : string) (args : list LogArg) : M A :=
  ([EvLog FatalLevel format args], Exited).

(** [ch <- m]. *)
Definition send (m : Metric) : M unit := event (EvSend m).

(** [for _, x := range xs { body }]. *)
Fixpoint range {A : Type} (xs : list A) (body : A → M unit) : M unit :=
  match xs with
  | [] => ret tt
  | x :: xs' => body x ;; range xs' body
  end.

(** The metrics a trace sent on the channel, in order. *)
Fixpoint sent (t : list Event) : list Metric :=
  match t with
  | [] => []
  | EvSend m :: t' => m :: sent t'
  | _ :: t' => sent t'
  end.

(** The upstream queries of a trace, in order. *)
Fixpoint queries (t : list Event) : list Query :=
  match t with
  | [] => []
  | EvQuery q :: t' => q :: queries t'
  | _ :: t' => queries t'
  end.

(** The payload decodings a trace attempted. *)
Fixpoint unpacks (t : list Event) : list RPCError :=
  match t with
  | [] => []
  | EvUnpack e :: t' => e :: unpacks t'
  | _ :: t' => unpacks t'
  end.

(** The metrics of one family among [ms]. *)
Definition of_family (name : string) (ms : list Metric) : list Metric :=
  filter (λ m, family m = name) ms.

(** Modelled from the spec: [GaugeDesc.MustNewConstMetric] is declared
    outside exporter.go.  It builds an observation of the family, and a
    number of label values that differs from the number of label names is a
    fatal precondition violation: the process ends there. *)
Definition MustNewConstMetric (d : GaugeDesc) (value : float64)
    (labels : list string) : M Metric :=
  if decide (length labels = length (VariableLabels d))
  then ret (ConstMetric d value labels)
  else ([], Exited).

(** Modelled from the spec: [GaugeDesc.NewInvalidMetric] is declared
    outside exporter.go.  It always succeeds and yields the failure
    sentinel of the family, carrying the error. *)
Definition NewInvalidMetric (d : GaugeDesc) (err : GoError) : Metric :=
  InvalidMetric d err.

(** Modelled from the spec: [CombineUnique] is declared outside
    exporter.go.  It merges its argument lists into the deduplicated
    collection of their members; the collector keeps the result in a slice,
    so the members come as a list without repetition. *)
Definition CombineUnique (args : list (list string)) : list string :=
  remove_dups (concat args).

(** The members of an address list, as a set. *)
Definition address_set (l : list string) : gset string := list_to_set l.

(** ** The collector *)

Section Collector.

Context {P : Type} `{Provider P}.

(** [FetchBalances(ctx, client, addresses)] is declared outside
    exporter.go: it asks the client for the balance of each address and
    returns a map from address to balance.  The list is that map in the
    order in which [range] happens to visit it. *)
Variable FetchBalances : P → list string → Result (list (string * float64)).

(** [rpc.UnpackRpcErrorData(rpcErr, formatted)] is declared outside
    exporter.go.  Whatever it decodes, it gives back an error or nil. *)
Variable UnpackRpcErrorData :
  RPCError → NodeUnhealthyErrorData → option GoError.

(** [SolanaCollector].  The logger is not a field of the model: what it
    writes goes on the trace. *)
Record SolanaCollector : Type := {
  rpcClient : P;
  (* config: *)
  slotPace : Z;
  balanceAddresses : list string;
  identity : string;
  (* descriptors: *)
  ValidatorActive : GaugeDesc;
  ValidatorActiveStake : GaugeDesc;
  ValidatorLastVote : GaugeDesc;
  ValidatorRootSlot : GaugeDesc;
  ValidatorDelinquent : GaugeDesc;
  AccountBalances : GaugeDesc;
  NodeVersion : GaugeDesc;
  NodeIsHealthy : GaugeDesc;
  NodeNumSlotsBehind : GaugeDesc;
  NodeMinimumLedgerSlot : GaugeDesc;
  NodeFirstAvailableBlock : GaugeDesc
}.

Definition NewSolanaCollector (provider : P) (slotPace : Z)
    (balanceAddresses nodekeys votekeys : list string) (identity : string)
    : SolanaCollector :=
  {| rpcClient := provider;
     slotPace := slotPace;
     balanceAddresses := CombineUnique [balanceAddresses; nodekeys; votekeys];
     identity := identity;
     ValidatorActive :=
       NewGaugeDesc "solana_validator_active"
         ("Total number of active validators, grouped by " +:+ StateLabel
            +:+ " ('" +:+ StateCurrent +:+ "' or '" +:+ StateDelinquent +:+ "')")
         [StateLabel];
     ValidatorActiveStake :=
       NewGaugeDesc "solana_validator_active_stake"
         ("Active stake per validator (represented by " +:+ VotekeyLabel
            +:+ " and " +:+ NodekeyLabel +:+ ")")
         [VotekeyLabel; NodekeyLabel];
     ValidatorLastVote :=
       NewGaugeDesc "solana_validator_last_vote"
         ("Last voted-on slot per validator (represented by " +:+ VotekeyLabel
            +:+ " and " +:+ NodekeyLabel +:+ ")")
         [VotekeyLabel; NodekeyLabel];
     ValidatorRootSlot :=
       NewGaugeDesc "solana_validator_root_slot"
         ("Root slot per validator (represented by " +:+ VotekeyLabel
            +:+ " and " +:+ NodekeyLabel +:+ ")")
         [VotekeyLabel; NodekeyLabel];
     ValidatorDelinquent :=
       NewGaugeDesc "solana_validator_delinquent"
         ("Whether a validator (represented by " +:+ VotekeyLabel
            +:+ " and " +:+ NodekeyLabel +:+ ") is delinquent")
         [VotekeyLabel; NodekeyLabel];
     AccountBalances :=
       NewGaugeDesc "solana_account_balance"
         ("Solana account balances, grouped by " +:+ AddressLabel)
         [AddressLabel];
     NodeVersion :=
       NewGaugeDesc "solana_node_version"
         "Node version of solana"
         [VersionLabel];
     NodeIsHealthy :=
       NewGaugeDesc "solana_node_is_healthy"
         ("Whether a node (" +:+ IdentityLabel +:+ ") is healthy")
         [IdentityLabel];
     NodeNumSlotsBehind :=
       NewGaugeDesc "solana_node_num_slots_behind"
         ("The number of slots that the node (" +:+ IdentityLabel
            +:+ ") is behind the latest cluster confirmed slot.")
         [IdentityLabel];
     NodeMinimumLedgerSlot :=
       NewGaugeDesc "solana_node_minimum_ledger_slot"
         ("The lowest slot that the node (" +:+ IdentityLabel
            +:+ ") has information about in its ledger.")
         [IdentityLabel];
     NodeFirstAvailableBlock :=
       NewGaugeDesc "solana_node_first_available_block"
         ("The slot of the lowest confirmed block that has not been purged from the node's ("
            +:+ IdentityLabel +:+ ") ledger.")
         [IdentityLabel] |}.

(** [ch <- d.MustNewConstMetric(value, labels...)]: the metric is built,
    then sent. *)
Definition send_const (d : GaugeDesc) (value : float64)
    (labels : list string) : M unit :=
  m ← MustNewConstMetric d value labels; send m.

Definition collectVoteAccounts (c : SolanaCollector) : M unit :=
  r ← query (QGetVoteAccounts CommitmentConfirmed None)
        (GetVoteAccounts (rpcClient c) CommitmentConfirmed None);
  match r with
  | Err err =>
      Errorf "failed to get vote accounts: %v" [ArgError err];;
      send (NewInvalidMetric (ValidatorActive c) err);;
      send (NewInvalidMetric (ValidatorActiveStake c) err);;
      send (NewInvalidMetric (ValidatorLastVote c) err);;
      send (NewInvalidMetric (ValidatorRootSlot c) err);;
      send (NewInvalidMetric (ValidatorDelinquent c) err);;
      ret tt
  | Ok voteAccounts =>
      send_const (ValidatorActive c)
        (float64_of_int (len (Delinquent voteAccounts))) [StateDelinquent];;
      send_const (ValidatorActive c)
        (float64_of_int (len (Current voteAccounts))) [StateCurrent];;

      range (Current voteAccounts ++ Delinquent voteAccounts) (λ account,
        let accounts := [VotePubkey account; NodePubkey account] in
        send_const (ValidatorActiveStake c)
          (float64_of_int (ActivatedStake account)) accounts;;
        send_const (ValidatorLastVote c)
          (float64_of_int (LastVote account)) accounts;;
        send_const (ValidatorRootSlot c)
          (float64_of_int (RootSlot account)) accounts);;

      range (Current voteAccounts) (λ account,
        send_const (ValidatorDelinquent c) (float64_of_int 0)
          [VotePubkey account; NodePubkey account]);;
      range (Delinquent voteAccounts) (λ account,
        send_const (ValidatorDelinquent c) (float64_of_int 1)
          [VotePubkey account; NodePubkey account])
  end.

Definition collectVersion (c : SolanaCollector) : M unit :=
  r ← query QGetVersion (GetVersion (rpcClient c));
  match r with
  | Err err =>
      Errorf "failed to get version: %v" [ArgError err];;
      send (NewInvalidMetric (NodeVersion c) err);;
      ret tt
  | Ok version =>
      send_const (NodeVersion c) (float64_of_int 1) [version]
  end.

Definition collectMinimumLedgerSlot (c : SolanaCollector) : M unit :=
  r ← query QGetMinimumLedgerSlot (GetMinimumLedgerSlot (rpcClient c));
  match r with
  | Err err =>
      Errorf "failed to get minimum lidger slot: %v" [ArgError err];;
      send (NewInvalidMetric (NodeMinimumLedgerSlot c) err);;
      ret tt
  | Ok slot =>
      send_const (NodeMinimumLedgerSlot c) (float64_of_int slot) [identity c]
  end.

Definition collectFirstAvailableBlock (c : SolanaCollector) : M unit :=
  r ← query QGetFirstAvailableBlock (GetFirstAvailableBlock (rpcClient c));
  match r with
  | Err err =>
      Errorf "failed to get first available block: %v" [ArgError err];;
      send (NewInvalidMetric (NodeFirstAvailableBlock c) err);;
      ret tt
  | Ok block =>
      send_const (NodeFirstAvailableBlock c) (float64_of_int block) [identity c]
  end.

Definition collectBalances (c : SolanaCollector) : M unit :=
  r ← query (QFetchBalances (balanceAddresses c))
        (FetchBalances (rpcClient c) (balanceAddresses c));
  match r with
  | Err err =>
      Errorf "failed to get balances: %v" [ArgError err];;
      send (NewInvalidMetric (AccountBalances c) err);;
      ret tt
  | Ok balances =>
      range balances (λ '(address, balance),
        send_const (AccountBalances c) balance [address])
  end.

(** [collectHealth].  The local [errorData] is handed to
    [UnpackRpcErrorData] as a value (line 242 passes [errorData], not its
    address), so the callee works on a copy and the local keeps the zero
    value it was declared with; line 247 reads the local. *)
Definition collectHealth (c : SolanaCollector) : M unit :=
  let isHealthy := 1 in
  let numSlotsBehind := 0 in
  let emit (isHealthy numSlotsBehind : Z) : M unit :=
    send_const (NodeIsHealthy c) (float64_of_int isHealthy) [identity c];;
    send_const (NodeNumSlotsBehind c) (float64_of_int numSlotsBehind)
      [identity c]
  in
  err ← query QGetHealth (GetHealth (rpcClient c));
  match err with
  | Some err =>
      match errors_As err with
      | Some rpcError =>
          let errorData := {| NumSlotsBehind := 0 |} in
          match Data rpcError with
          | None =>
              (* if there is no data, then this is some unexpected error
                 and should just be logged *)
              Errorf "failed to get health: %v" [ArgError err];;
              send (NewInvalidMetric (NodeIsHealthy c) err);;
              send (NewInvalidMetric (NodeNumSlotsBehind c) err);;
              ret tt
          | Some _ =>
              event (EvUnpack rpcError);;
              match UnpackRpcErrorData rpcError errorData with
              | Some err =>
                  (* if we error here, it means we have the incorrect
                     format *)
                  Fatalf "failed to unpack %s rpc error: %v"
                    [ArgString (Method rpcError); ArgError err]
              | None =>
                  let isHealthy := 0 in
                  let numSlotsBehind := NumSlotsBehind errorData in
                  emit isHealthy numSlotsBehind
              end
          end
      | None =>
          (* if it's not an RPC error, log it *)
          Errorf "failed to get health: %v" [ArgError err];;
          send (NewInvalidMetric (NodeIsHealthy c) err);;
          send (NewInvalidMetric (NodeNumSlotsBehind c) err);;
          ret tt
      end
  | None => emit isHealthy numSlotsBehind
  end.

(** [Collect].  The context it creates is only handed on to the queries,
    whose answers the provider fixes, and [cancel] releases it on return. *)
Definition Collect (c : SolanaCollector) : M unit :=
  collectVoteAccounts c;;
  collectVersion c;;
  collectBalances c;;
  collectHealth c;;
  collectMinimumLedgerSlot c;;
  collectFirstAvailableBlock c.

End Collector.

Arguments SolanaCollector P : clear implicits.

(** ** A concrete upstream, for scrapes that can be run *)

(** A provider that answers each query with a fixed response, as a test
    double of [rpc.Provider] does; the balances answer comes with it. *)
Record StaticProvider : Type := {
  voteAccountsResponse : Result VoteAccounts;
  versionResponse : Result string;
  balancesResponse : Result (list (string * float64));
  healthResponse : option GoError;
  minimumLedgerSlotResponse : Result Z;
  firstAvailableBlockResponse : Result Z
}.

#[global] Instance StaticProvider_Provider : Provider StaticProvider := {
  GetVoteAccounts p _ _ := voteAccountsResponse p;
  GetVersion p := versionResponse p;
  GetHealth p := healthResponse p;
  GetMinimumLedgerSlot p := minimumLedgerSlotResponse p;
  GetFirstAvailableBlock p := firstAvailableBlockResponse p
}.

Definition static_FetchBalances (p : StaticProvider) (_ : list string)
    : Result (list (string * float64)) :=
  balancesResponse p.

(** The member [key] of a payload, if present. *)
Fixpoint payload_get (key : string) (p : Payload) : option JSONValue :=
  match p with
  | [] => None
  | (k, v) :: p' => if decide (k = key) then Some v else payload_get key p'
  end.

(** Modelled from the spec: the decoding of the secondary payload into
    [{numSlotsBehind: integer}], which [rpc.UnpackRpcErrorData] (declared
    outside exporter.go) performs. *)
Definition decodeNodeUnhealthy (p : Payload) : option NodeUnhealthyErrorData :=
  match payload_get "numSlotsBehind" p with
  | Some (JNumber n) => Some {| NumSlotsBehind := n |}
  | _ => None
  end.

(** Modelled from the spec: [rpc.UnpackRpcErrorData] is declared outside
    exporter.go.  It decodes the payload of [rpcErr] and reports whether
    that worked; [formatted] arrives by value, so what is decoded stays in
    the callee. *)
Definition UnpackRpcErrorData_decode (rpcErr : RPCError)
    (formatted : NodeUnhealthyErrorData) : option GoError :=
  match Data rpcErr with
  | Some p =>
      match decodeNodeUnhealthy p with
      | Some _ => None
      | None =>
          Some (PlainError ("failed to unmarshal " +:+ Method rpcErr
                              +:+ " rpc-error data"))
      end
  | None =>
      Some (PlainError ("failed to unmarshal " +:+ Method rpcErr
                          +:+ " rpc-error data"))
  end.

Definition V1 : VoteAccount :=
  {| VotePubkey := "V1"; NodePubkey := "N1";
     ActivatedStake := 100; LastVote := 50; RootSlot := 40 |}.

Definition one_current : VoteAccounts :=
  {| Current := [V1]; Delinquent := [] |}.

Definition current_and_delinquent : VoteAccounts :=
  {| Current := [V1]; Delinquent := [V1] |}.

Definition healthy_node : StaticProvider :=
  {| voteAccountsResponse := Ok one_current;
     versionResponse := Ok "1.18.0";
     balancesResponse := Ok [("A", 5 # 2)%Q];
     healthResponse := None;
     minimumLedgerSlotResponse := Ok 7;
     firstAvailableBlockResponse := Ok 3 |}.

(** The error of a health query that an RPC error with the given payload
    answers. *)
Definition node_unhealthy (payload : option Payload) : GoError :=
  RpcError {| Method := "getHealth"; Data := payload |}.

Definition with_votes (r : Result VoteAccounts) (p : StaticProvider)
    : StaticProvider :=
  {| voteAccountsResponse := r;
     versionResponse := versionResponse p;
     balancesResponse := balancesResponse p;
     healthResponse := healthResponse p;
     minimumLedgerSlotResponse := minimumLedgerSlotResponse p;
     firstAvailableBlockResponse := firstAvailableBlockResponse p |}.

Definition with_health (h : option GoError) (p : StaticProvider)
    : StaticProvider :=
  {| voteAccountsResponse := voteAccountsResponse p;
     versionResponse := versionResponse p;
     balancesResponse := balancesResponse p;
     healthResponse := h;
     minimumLedgerSlotResponse := minimumLedgerSlotResponse p;
     firstAvailableBlockResponse := firstAvailableBlockResponse p |}.

Definition connection_refused : GoError := PlainError "connection refused".

(** The vote-accounts query fails. *)
Definition votes_down_node : StaticProvider :=
  with_votes (Err connection_refused) healthy_node.

(** The same validator is reported as current and as delinquent. *)
Definition shared_record_node : StaticProvider :=
  with_votes (Ok current_and_delinquent) healthy_node.

(** The health query cannot reach the node. *)
Definition unreachable_node : StaticProvider :=
  with_health (Some connection_refused) healthy_node.

(** The node is seven slots behind. *)
Definition seven_behind : Payload := [("numSlotsBehind", JNumber 7)].
Definition lagging_node : StaticProvider :=
  with_health (Some (node_unhealthy (Some seven_behind))) healthy_node.

(** The node answers with a payload of another shape. *)
Definition other_shape : Payload := [("numSlotsBehind", JString "seven")].
Definition drifted_node : StaticProvider :=
  with_health (Some (node_unhealthy (Some other_shape))) healthy_node.

(** The collector and the scrape the examples use. *)
Definition example_collector (p : StaticProvider)
    : SolanaCollector StaticProvider :=
  NewSolanaCollector p 0 ["A"] [] [] "id".

Definition example_scrape (p : StaticProvider) : M unit :=
  Collect static_FetchBalances UnpackRpcErrorData_decode (example_collector p).

(** ** Sub-collections, their families and their failures *)

Inductive SubCollection : Type :=
| VoteAccountsSub
| VersionSub
| BalancesSub
| HealthSub
| MinimumLedgerSlotSub
| FirstAvailableBlockSub.

#[global] Instance SubCollection_eq_dec : EqDecision SubCollection.
Proof. solve_decision. Defined.

Section SubCollections.

Context {P : Type} `{Provider P}.
Variable FetchBalances : P → list string → Result (list (string * float64)).
Variable UnpackRpcErrorData :
  RPCError → NodeUnhealthyErrorData → option GoError.

(** The function of exporter.go behind each sub-collection. *)
Definition run (k : SubCollection) (c : SolanaCollector P) : M unit :=
  match k with
  | VoteAccountsSub => collectVoteAccounts c
  | VersionSub => collectVersion c
  | BalancesSub => collectBalances FetchBalances c
  | HealthSub => collectHealth UnpackRpcErrorData c
  | MinimumLedgerSlotSub => collectMinimumLedgerSlot c
  | FirstAvailableBlockSub => collectFirstAvailableBlock c
  end.

(** The descriptors a sub-collection sends metrics of, in the order of
    its failure path. *)
Definition owned (c : SolanaCollector P) (k : SubCollection)
    : list GaugeDesc :=
  match k with
  | VoteAccountsSub =>
      [ValidatorActive c; ValidatorActiveStake c; ValidatorLastVote c;
       ValidatorRootSlot c; ValidatorDelinquent c]
  | VersionSub => [NodeVersion c]
  | BalancesSub => [AccountBalances c]
  | HealthSub => [NodeIsHealthy c; NodeNumSlotsBehind c]
  | MinimumLedgerSlotSub => [NodeMinimumLedgerSlot c]
  | FirstAvailableBlockSub => [NodeFirstAvailableBlock c]
  end.

(** The family names of a sub-collection. *)
Definition families (c : SolanaCollector P) (k : SubCollection)
    : list string :=
  Name <$> owned c k.

(** The metrics among [ms] of the families of sub-collection [k], and
    those of all other families. *)
Definition of_sub (c : SolanaCollector P) (k : SubCollection)
    (ms : list Metric) : list Metric :=
  filter (λ m, family m ∈ families c k) ms.

Definition not_of_sub (c : SolanaCollector P) (k : SubCollection)
    (ms : list Metric) : list Metric :=
  filter (λ m, family m ∉ families c k) ms.

(** The error of a health query that makes the health sub-collection give
    up on the scrape: one that is no RPC error, or an RPC error without
    payload. *)
Definition health_failure (h : option GoError) : option GoError :=
  match h with
  | Some err =>
      match errors_As err with
      | Some rpcError =>
          match Data rpcError with
          | None => Some err
          | Some _ => None
          end
      | None => Some err
      end
  | None => None
  end.

(** The error with which sub-collection [k] fails against client [p], if
    it does. *)
Definition failure (p : P) (addresses : list string) (k : SubCollection)
    : option GoError :=
  match k with
  | VoteAccountsSub =>
      match GetVoteAccounts p CommitmentConfirmed None with
      | Err err => Some err
      | Ok _ => None
      end
  | VersionSub =>
      match GetVersion p with Err err => Some err | Ok _ => None end
  | BalancesSub =>
      match FetchBalances p addresses with
      | Err err => Some err
      | Ok _ => None
      end
  | HealthSub => health_failure (GetHealth p)
  | MinimumLedgerSlotSub =>
      match GetMinimumLedgerSlot p with Err err => Some err | Ok _ => None end
  | FirstAvailableBlockSub =>
      match GetFirstAvailableBlock p with
      | Err err => Some err
      | Ok _ => None
      end
  end.

(** The health query failed with an RPC error that carries a payload
    which [UnpackRpcErrorData] reports it cannot decode. *)
Definition undecodable (h : option GoError) : bool :=
  match h with
  | Some err =>
      match errors_As err with
      | Some rpcError =>
          match Data rpcError with
          | Some _ =>
              match UnpackRpcErrorData rpcError {| NumSlotsBehind := 0 |} with
              | Some _ => true
              | None => false
              end
          | None => false
          end
      | None => false
      end
  | None => false
  end.

(** Clients [p] and [p'] answer the query of sub-collection [k] alike. *)
Definition same_response (addresses : list string) (k : SubCollection)
    (p p' : P) : Prop :=
  match k with
  | VoteAccountsSub =>
      GetVoteAccounts p CommitmentConfirmed None
      = GetVoteAccounts p' CommitmentConfirmed None
  | VersionSub => GetVersion p = GetVersion p'
  | BalancesSub => FetchBalances p addresses = FetchBalances p' addresses
  | HealthSub => GetHealth p = GetHealth p'
  | MinimumLedgerSlotSub => GetMinimumLedgerSlot p = GetMinimumLedgerSlot p'
  | FirstAvailableBlockSub =>
      GetFirstAvailableBlock p = GetFirstAvailableBlock p'
  end.

(** *** What a successful vote-accounts query is turned into *)

Definition validator_active_obs (c : SolanaCollector P) (va : VoteAccounts)
    : list Metric :=
  [ConstMetric (ValidatorActive c)
     (float64_of_int (len (Delinquent va))) [StateDelinquent];
   ConstMetric (ValidatorActive c)
     (float64_of_int (len (Current va))) [StateCurrent]].

Definition stake_obs (c : SolanaCollector P) (a : VoteAccount) : Metric :=
  ConstMetric (ValidatorActiveStake c) (float64_of_int (ActivatedStake a))
    [VotePubkey a; NodePubkey a].

Definition last_vote_obs (c : SolanaCollector P) (a : VoteAccount) : Metric :=
  ConstMetric (ValidatorLastVote c) (float64_of_int (LastVote a))
    [VotePubkey a; NodePubkey a].

Definition root_slot_obs (c : SolanaCollector P) (a : VoteAccount) : Metric :=
  ConstMetric (ValidatorRootSlot c) (float64_of_int (RootSlot a))
    [VotePubkey a; NodePubkey a].

Definition delinquent_obs (c : SolanaCollector P) (v : Z) (a : VoteAccount)
    : Metric :=
  ConstMetric (ValidatorDelinquent c) (float64_of_int v)
    [VotePubkey a; NodePubkey a].

Definition per_validator_obs (c : SolanaCollector P) (a : VoteAccount)
    : list Metric :=
  [stake_obs c a; last_vote_obs c a; root_slot_obs c a].

Definition vote_accounts_obs (c : SolanaCollector P) (va : VoteAccounts)
    : list Metric :=
  validator_active_obs c va
  ++ ((Current va ++ Delinquent va) ≫= per_validator_obs c)
  ++ (delinquent_obs c 0 <$> Current va)
  ++ (delinquent_obs c 1 <$> Delinquent va).

(** *** What the other successful queries are turned into *)

Definition balance_obs (c : SolanaCollector P) (ab : string * float64)
    : Metric :=
  ConstMetric (AccountBalances c) ab.2 [ab.1].

Definition health_obs (c : SolanaCollector P) (isHealthy numSlotsBehind : Z)
    : list Metric :=
  [ConstMetric (NodeIsHealthy c) (float64_of_int isHealthy) [identity c];
   ConstMetric (NodeNumSlotsBehind c) (float64_of_int numSlotsBehind)
     [identity c]].

(** Whether sub-collection [k] fails against client [p]. *)
Definition fails (p : P) (addresses : list string) (k : SubCollection)
    : bool :=
  match failure p addresses k with
  | Some _ => true
  | None => false
  end.

(** The upstream query of a sub-collection. *)
Definition query_of (c : SolanaCollector P) (k : SubCollection) : Query :=
  match k with
  | VoteAccountsSub => QGetVoteAccounts CommitmentConfirmed None
  | VersionSub => QGetVersion
  | BalancesSub => QFetchBalances (balanceAddresses c)
  | HealthSub => QGetHealth
  | MinimumLedgerSlotSub => QGetMinimumLedgerSlot
  | FirstAvailableBlockSub => QGetFirstAvailableBlock
  end.

(** The sub-collections, in the order in which [Collect] runs them. *)
Definition sub_collections : list SubCollection :=
  [VoteAccountsSub; VersionSub; BalancesSub; HealthSub;
   MinimumLedgerSlotSub; FirstAvailableBlockSub].

(** The sub-collections that [Collect] runs after the health one. *)
Definition after_health (k : SubCollection) : bool :=
  match k with
  | MinimumLedgerSlotSub | FirstAvailableBlockSub => true
  | _ => false
  end.


(** The failure sentinels of a sub-collection. *)
Definition sentinels (c : SolanaCollector P) (k : SubCollection)
    (err : GoError) : list Metric :=
  (λ d, NewInvalidMetric d err) <$> owned c k.

(** The label pair of a validator record. *)
Definition keys (a : VoteAccount) : list string :=
  [VotePubkey a; NodePubkey a].

(** The metrics among [ms] with the given label values. *)
Definition with_labels (labels : list string) (ms : list Metric)
    : list Metric :=
  filter (λ m, labels_of m = Some labels) ms.

End SubCollections.

(** ** Describe, the log of a scrape, and well-formed samples *)

(** [Describe]: the descriptors it sends on its channel, in order.  The
    [Desc] of a gauge descriptor stands for the descriptor itself. *)
Definition Describe {P : Type} (c : SolanaCollector P) : list GaugeDesc :=
  [ValidatorActive c;
   NodeVersion c;
   ValidatorActiveStake c;
   ValidatorLastVote c;
   ValidatorRootSlot c;
   ValidatorDelinquent c;
   AccountBalances c;
   NodeIsHealthy c;
   NodeNumSlotsBehind c;
   NodeMinimumLedgerSlot c;
   NodeFirstAvailableBlock c].

(** The lines a trace wrote to the log, in order. *)
Fixpoint logs (t : list Event) : list (Level * string * list LogArg) :=
  match t with
  | [] => []
  | EvLog lvl format args :: t' => (lvl, format, args) :: logs t'
  | _ :: t' => logs t'
  end.

(** The format of the error line of each sub-collection, as exporter.go
    spells it. *)
Definition failure_format (k : SubCollection) : string :=
  match k with
  | VoteAccountsSub => "failed to get vote accounts: %v"
  | VersionSub => "failed to get version: %v"
  | BalancesSub => "failed to get balances: %v"
  | HealthSub => "failed to get health: %v"
  | MinimumLedgerSlotSub => "failed to get minimum lidger slot: %v"
  | FirstAvailableBlockSub => "failed to get first available block: %v"
  end.

(** The line a sub-collection that fails with [err] logs. *)
Definition failure_line (k : SubCollection) (err : GoError)
    : Level * string * list LogArg :=
  (ErrorLevel, failure_format k, [ArgError err]).

(** A gauge sample has as many label values as its descriptor has label
    names; a sentinel has no label values to count. *)
Definition well_labelled (m : Metric) : Prop :=
  match m with
  | ConstMetric d _ labels => length labels = length (VariableLabels d)
  | InvalidMetric _ _ => True
  end.

(** ** Process start *)

Module Main.

(** The fields of the exporter configuration that [main] reads; the type
    is declared outside exporter.go. *)
Record ExporterConfig : Type := {
  HttpTimeout : Z;
  RpcUrl : string;
  ListenAddress : string;
  NodeKeys : list string;
  BalanceAddresses : list string;
  ComprehensiveSlotTracking : bool;
  MonitorBlockSizes : bool
}.

Inductive LogLevel : Type := WarnLevel | InfoLevel | FatalLevel.

Inductive Arg : Type :=
| ArgStrings (l : list string)
| ArgString (s : string)
| ArgError (err : GoError).

(** What [main] does to the outside, in order: [Log] for the logger's
    [Warn] and [Fatal], [Logf] for [Infof] and [Fatalf].  The context that
    [main] derives and cancels on return is only handed to the watcher. *)
Inductive Step (P : Type) : Type :=
| Log (lvl : LogLevel) (args : list Arg)
| Logf (lvl : LogLevel) (format : string) (args : list Arg)
| NewRPCClient (url : string) (timeout : Z)
| GetAssociatedVoteAccounts (commitment : Commitment) (nodekeys : list string)
| GetIdentity
| NewSlotWatcher (client : P) (nodekeys votekeys : list string)
    (identity : string) (comprehensive monitorBlockSizes : bool)
| GoWatchSlots (pace : Z)
| MustRegister (c : SolanaCollector P)
| Handle (pattern : string)
| ListenAndServe (address : string).
Arguments Log {P} lvl args.
Arguments Logf {P} lvl format args.
Arguments NewRPCClient {P} url timeout.
Arguments GetAssociatedVoteAccounts {P} commitment nodekeys.
Arguments GetIdentity {P}.
Arguments NewSlotWatcher {P} client nodekeys votekeys identity comprehensive
  monitorBlockSizes.
Arguments GoWatchSlots {P} pace.
Arguments MustRegister {P} c.
Arguments Handle {P} pattern.
Arguments ListenAndServe {P} address.

(** How [main] ends: the process exits (inside [logger.Fatalf] or
    [logger.Fatal]), or it stays in [http.ListenAndServe]. *)
Inductive Ending : Type := Exits | Serves.

Section Start.

Context {P : Type} `{Provider P}.

(** Declared outside exporter.go: the configuration the command line
    gives, the client constructor, the lookup of the vote accounts of the
    configured node keys, the identity query, the pace constant, and what
    [http.ListenAndServe] returns ([None] while it keeps serving). *)
Variable fromCLI : ExporterConfig.
Variable newRPCClient : string → Z → P.
Variable getAssociatedVoteAccounts :
  P → Commitment → list string → Result (list string).
Variable getIdentity : P → Result string.
Variable slotPacerSchedule : Z.
Variable listenAndServe : string → option GoError.

Definition comprehensive_warning : string :=
  "Comprehensive slot tracking will lead to potentially thousands of new "
  +:+ "Prometheus metrics being created every epoch.".

Definition main : list (Step P) * Ending :=
  let config := fromCLI in
  let warned :=
    if ComprehensiveSlotTracking config
    then [Log WarnLevel [ArgString comprehensive_warning]]
    else [] in
  let client := newRPCClient (RpcUrl config) (HttpTimeout config) in
  let started := warned ++ [NewRPCClient (RpcUrl config) (HttpTimeout config)] in
  match getAssociatedVoteAccounts client CommitmentFinalized (NodeKeys config)
  with
  | Err err =>
      (started
         ++ [GetAssociatedVoteAccounts CommitmentFinalized (NodeKeys config);
             Logf FatalLevel
               "Failed to get associated vote accounts for %v: %v"
               [ArgStrings (NodeKeys config); ArgError err]],
       Exits)
  | Ok votekeys =>
      match getIdentity client with
      | Err err =>
          (started
             ++ [GetAssociatedVoteAccounts CommitmentFinalized
                   (NodeKeys config);
                 GetIdentity;
                 Logf FatalLevel "Failed to get identity: %v" [ArgError err]],
           Exits)
      | Ok identity =>
          let collector :=
            NewSolanaCollector client slotPacerSchedule
              (BalanceAddresses config) (NodeKeys config) votekeys identity in
          let serving :=
            started
              ++ [GetAssociatedVoteAccounts CommitmentFinalized
                    (NodeKeys config);
                  GetIdentity;
                  NewSlotWatcher client (NodeKeys config) votekeys identity
                    (ComprehensiveSlotTracking config)
                    (MonitorBlockSizes config);
                  GoWatchSlots (slotPace collector);
                  MustRegister collector;
                  Handle "/metrics";
                  Logf InfoLevel "listening on %s"
                    [ArgString (ListenAddress config)];
                  ListenAndServe (ListenAddress config)] in
          match listenAndServe (ListenAddress config) with
          | Some err => (serving ++ [Log FatalLevel [ArgError err]], Exits)
          | None => (serving, Serves)
          end
      end
  end.

(** The collectors a run of [main] registered. *)
Fixpoint registered (t : list (Step P)) : list (SolanaCollector P) :=
  match t with
  | [] => []
  | MustRegister c :: t' => c :: registered t'
  | _ :: t' => registered t'
  end.

(** Whether a step starts the watcher, registers a collector, installs the
    handler or listens. *)
Definition goes_live (s : Step P) : bool :=
  match s with
  | NewSlotWatcher _ _ _ _ _ _ | GoWatchSlots _ | MustRegister _
  | Handle _ | ListenAndServe _ => true
  | _ => false
  end.

End Start.

End Main.

(** ** More concrete upstreams and a concrete start *)

(** No query is answered. *)
Definition all_down_node : StaticProvider :=
  {| voteAccountsResponse := Err connection_refused;
     versionResponse := Err connection_refused;
     balancesResponse := Err connection_refused;
     healthResponse := Some connection_refused;
     minimumLedgerSlotResponse := Err connection_refused;
     firstAvailableBlockResponse := Err connection_refused |}.

Definition example_config : Main.ExporterConfig :=
  {| Main.HttpTimeout := 60;
     Main.RpcUrl := "http://localhost:8899";
     Main.ListenAddress := ":8080";
     Main.NodeKeys := ["N1"];
     Main.BalanceAddresses := ["A"];
     Main.ComprehensiveSlotTracking := true;
     Main.MonitorBlockSizes := false |}.

(** A start against the healthy node, whose server never returns. *)
Definition example_main : list (Main.Step StaticProvider) * Main.Ending :=
  Main.main example_config (λ _ _, healthy_node) (λ _ _ _, Ok ["V1"])
    (λ _, Ok "id") 0 (λ _, None).

(** A start at which the node does not give its identity. *)
Definition anonymous_main : list (Main.Step StaticProvider) * Main.Ending :=
  Main.main example_config (λ _ _, healthy_node) (λ _ _ _, Ok ["V1"])
    (λ _, Err connection_refused) 0 (λ _, None).

(** ** float64 conversions that are exact *)

Lemma round_binary64_exact (z : Z) :
  Z.abs z ≤ 2 ^ 53 → round_binary64 z = z.
Proof.
  intros Hz. unfold round_binary64.
  destruct (decide (Z.abs z = 2 ^ 53)) as [Heq|Hne].
  - destruct (Z.abs_spec z) as [[_ Ha]|[_ Ha]]; rewrite Ha in Heq.
    + by subst z.
    + assert (z = - 2 ^ 53) as -> by lia. reflexivity.
  - assert (Z.log2 (Z.abs z) < 53) as Hlog.
    { destruct (decide (Z.abs z = 0)) as [->|H0]; [done|].
      apply Z.log2_lt_pow2; lia. }
    destruct (Z.leb_spec (Z.log2 (Z.abs z) - 52) 0); [done|lia].
Qed.

Lemma float64_of_int_exact (z : Z) :
  Z.abs z ≤ 2 ^ 53 → float64_of_int z = inject_Z z.
Proof. intros Hz. unfold float64_of_int. by rewrite round_binary64_exact. Qed.

Lemma len_nonneg {A : Type} (l : list A) : 0 ≤ len l.
Proof. unfold len. lia. Qed.

(** ** The monad *)

Section MonadLemmas.

Context {A B : Type}.

Lemma bind_returned (t : list Event) (a : A) (k : A → M B) :
  (t, Returned a) ≫= k = (t ++ trace (k a), outcome (k a)).
Proof. unfold mbind, M_bind, bind, trace, outcome. by destruct (k a). Qed.

Lemma bind_exited (t : list Event) (k : A → M B) :
  (t, Exited) ≫= k = (t, Exited).
Proof. reflexivity. Qed.

Lemma bind_ret (a : A) (k : A → M B) : ret a ≫= k = k a.
Proof. unfold ret. rewrite bind_returned. by destruct (k a). Qed.

End MonadLemmas.

Lemma trace_pair {A : Type} (t : list Event) (o : Outcome A) :
  trace (t, o) = t.
Proof. reflexivity. Qed.

Lemma outcome_pair {A : Type} (t : list Event) (o : Outcome A) :
  outcome (t, o) = o.
Proof. reflexivity. Qed.

Lemma seq_returned (m k : M unit) :
  outcome m = Returned tt → (m ;; k) = (trace m ++ trace k, outcome k).
Proof.
  destruct m as [t o]. unfold outcome, trace at 1; cbn [fst snd].
  intros ->. by rewrite bind_returned.
Qed.

Lemma seq_exited (m k : M unit) :
  outcome m = Exited → (m ;; k) = (trace m, Exited).
Proof.
  destruct m as [t o]. unfold outcome, trace; cbn [fst snd]. by intros ->.
Qed.

Lemma sent_app (t t' : list Event) : sent (t ++ t') = sent t ++ sent t'.
Proof.
  induction t as [|e t IH]; [done|].
  destruct e; simpl; by rewrite ?IH.
Qed.

Lemma queries_app (t t' : list Event) :
  queries (t ++ t') = queries t ++ queries t'.
Proof.
  induction t as [|e t IH]; [done|].
  destruct e; simpl; by rewrite ?IH.
Qed.

Lemma unpacks_app (t t' : list Event) :
  unpacks (t ++ t') = unpacks t ++ unpacks t'.
Proof.
  induction t as [|e t IH]; [done|].
  destruct e; simpl; by rewrite ?IH.
Qed.

Lemma sent_sends (ms : list Metric) : sent (EvSend <$> ms) = ms.
Proof. induction ms as [|m ms IH]; [done|]. simpl. by f_equal. Qed.

Lemma queries_sends (ms : list Metric) : queries (EvSend <$> ms) = [].
Proof. by induction ms. Qed.

Lemma unpacks_sends (ms : list Metric) : unpacks (EvSend <$> ms) = [].
Proof. by induction ms. Qed.

Ltac queries_simpl :=
  unfold trace; cbn [fst queries]; rewrite ?queries_app, ?queries_sends.

(** Reads the metrics off a trace that is known event by event. *)
Ltac sent_simpl :=
  unfold trace; cbn [fst sent]; rewrite ?sent_app, ?sent_sends.

(** Decides a membership or an inequality between family names that are
    known. *)
Ltac names := apply (bool_decide_unpack _); vm_compute; exact I.

Section Filters.

Context {A B : Type} (Q : B → Prop) `{!∀ b, Decision (Q b)}.

Lemma filter_bind_one (f : A → list B) (g : A → B) (xs : list A) :
  (∀ a, filter Q (f a) = [g a]) → filter Q (xs ≫= f) = g <$> xs.
Proof.
  intros Hf. induction xs as [|x xs IH]; [done|].
  change ((x :: xs) ≫= f) with (f x ++ (xs ≫= f)).
  by rewrite filter_app, Hf, IH.
Qed.

Lemma filter_bind_nil (f : A → list B) (xs : list A) :
  (∀ a, filter Q (f a) = []) → filter Q (xs ≫= f) = [].
Proof.
  intros Hf. induction xs as [|x xs IH]; [done|].
  change ((x :: xs) ≫= f) with (f x ++ (xs ≫= f)).
  by rewrite filter_app, Hf, IH.
Qed.

Lemma filter_fmap_all (f : A → B) (xs : list A) :
  (∀ a, Q (f a)) → filter Q (f <$> xs) = f <$> xs.
Proof.
  intros Hf. induction xs as [|x xs IH]; [done|].
  rewrite fmap_cons, filter_cons_True by done. by rewrite IH.
Qed.

Lemma filter_fmap_none (f : A → B) (xs : list A) :
  (∀ a, ¬ Q (f a)) → filter Q (f <$> xs) = [].
Proof.
  intros Hf. induction xs as [|x xs IH]; [done|].
  by rewrite fmap_cons, filter_cons_False.
Qed.

Lemma filter_all (l : list B) : Forall Q l → filter Q l = l.
Proof.
  induction 1 as [|b l Hb _ IH]; [done|].
  by rewrite filter_cons_True, IH.
Qed.

Lemma filter_none (l : list B) : Forall (λ b, ¬ Q b) l → filter Q l = [].
Proof.
  induction 1 as [|b l Hb _ IH]; [done|].
  by rewrite filter_cons_False.
Qed.

End Filters.

Section Keys.

Context {A K : Type} `{EqDecision K} (g : A → K).

Lemma filter_key_notin (xs : list A) (k : K) :
  k ∉ g <$> xs → filter (λ x, g x = k) xs = [].
Proof.
  intros Hk. apply filter_none, Forall_forall. intros x Hx Hgx.
  apply Hk. rewrite <- Hgx. by apply list_elem_of_fmap_2.
Qed.

Lemma filter_key_in (xs : list A) (a : A) :
  NoDup (g <$> xs) → a ∈ xs → filter (λ x, g x = g a) xs = [a].
Proof.
  induction xs as [|x xs IH]; intros Hnd Ha; [by apply elem_of_nil in Ha|].
  rewrite fmap_cons in Hnd. apply NoDup_cons in Hnd as [Hx Hnd].
  apply elem_of_cons in Ha as [->|Ha].
  - rewrite filter_cons_True by done. by rewrite filter_key_notin.
  - rewrite filter_cons_False; [by apply IH|].
    intros Hgx. apply Hx. rewrite Hgx. by apply list_elem_of_fmap_2.
Qed.

End Keys.

(** A loop whose body only sends metrics sends them all, in order, and
    returns. *)
Lemma range_sends {A : Type} (xs : list A) (body : A → M unit)
    (f : A → list Metric) :
  (∀ x, body x = (EvSend <$> f x, Returned tt)) →
  range xs body = (EvSend <$> (xs ≫= f), Returned tt).
Proof.
  intros Hbody. induction xs as [|x xs IH]; [done|].
  simpl. rewrite Hbody, bind_returned, IH. simpl.
  by rewrite fmap_app.
Qed.

Lemma list_bind_one {A B : Type} (f : A → B) (xs : list A) :
  xs ≫= (λ a, [f a]) = f <$> xs.
Proof. induction xs as [|x xs IH]; [done|]. simpl. by f_equal. Qed.

Lemma send_const_ok (d : GaugeDesc) (v : float64) (labels : list string) :
  length labels = length (VariableLabels d) →
  send_const d v labels = ([EvSend (ConstMetric d v labels)], Returned tt).
Proof.
  intros Hlen. unfold send_const, MustNewConstMetric.
  rewrite decide_True by done. by rewrite bind_ret.
Qed.

(** ** The sub-collections of a collector built by [NewSolanaCollector] *)

Section Scrape.

Context {P : Type} `{Provider P}.
Variable FetchBalances : P → list string → Result (list (string * float64)).
Variable UnpackRpcErrorData :
  RPCError → NodeUnhealthyErrorData → option GoError.
Variables (pace : Z) (addresses nodekeys votekeys : list string).
Variable ident : string.

Abbreviation collector p :=
  (NewSolanaCollector p pace addresses nodekeys votekeys ident).

Lemma query_bind {A B : Type} (q : Query) (r : A) (k : A → M B) :
  query q r ≫= k = (EvQuery q :: trace (k r), outcome (k r)).
Proof. unfold query. by rewrite bind_returned. Qed.

Lemma collectVoteAccounts_err (p : P) (err : GoError) :
  GetVoteAccounts p CommitmentConfirmed None = Err err →
  collectVoteAccounts (collector p)
  = (EvQuery (QGetVoteAccounts CommitmentConfirmed None)
       :: EvLog ErrorLevel "failed to get vote accounts: %v" [ArgError err]
       :: (EvSend <$> sentinels (collector p) VoteAccountsSub err),
     Returned tt).
Proof.
  intros Hr. unfold collectVoteAccounts. rewrite query_bind. simpl rpcClient.
  rewrite Hr. reflexivity.
Qed.

Lemma collectVoteAccounts_ok (p : P) (va : VoteAccounts) :
  GetVoteAccounts p CommitmentConfirmed None = Ok va →
  collectVoteAccounts (collector p)
  = (EvQuery (QGetVoteAccounts CommitmentConfirmed None)
       :: (EvSend <$> vote_accounts_obs (collector p) va),
     Returned tt).
Proof.
  intros Hr. unfold collectVoteAccounts. rewrite query_bind. simpl rpcClient.
  rewrite Hr.
  rewrite !send_const_ok by reflexivity.
  rewrite (range_sends (Current va ++ Delinquent va) _
             (per_validator_obs (collector p))).
  2:{ intros a. rewrite !send_const_ok by reflexivity. reflexivity. }
  rewrite (range_sends (Current va) _
             (λ a, [delinquent_obs (collector p) 0 a])).
  2:{ intros a. rewrite send_const_ok by reflexivity. reflexivity. }
  rewrite (range_sends (Delinquent va) _
             (λ a, [delinquent_obs (collector p) 1 a])).
  2:{ intros a. rewrite send_const_ok by reflexivity. reflexivity. }
  rewrite !bind_returned. simpl trace. simpl outcome.
  unfold vote_accounts_obs. rewrite !list_bind_one, !fmap_app.
  reflexivity.
Qed.

Lemma collectVersion_err (p : P) (err : GoError) :
  GetVersion p = Err err →
  collectVersion (collector p)
  = (EvQuery QGetVersion
       :: EvLog ErrorLevel "failed to get version: %v" [ArgError err]
       :: (EvSend <$> sentinels (collector p) VersionSub err),
     Returned tt).
Proof.
  intros Hr. unfold collectVersion. rewrite query_bind. simpl rpcClient.
  rewrite Hr. reflexivity.
Qed.

Lemma collectVersion_ok (p : P) (version : string) :
  GetVersion p = Ok version →
  collectVersion (collector p)
  = ([EvQuery QGetVersion;
      EvSend (ConstMetric (NodeVersion (collector p)) (float64_of_int 1)
                [version])],
     Returned tt).
Proof.
  intros Hr. unfold collectVersion. rewrite query_bind. simpl rpcClient.
  rewrite Hr. reflexivity.
Qed.

Lemma collectBalances_err (p : P) (err : GoError) :
  FetchBalances p (balanceAddresses (collector p)) = Err err →
  collectBalances FetchBalances (collector p)
  = (EvQuery (QFetchBalances (balanceAddresses (collector p)))
       :: EvLog ErrorLevel "failed to get balances: %v" [ArgError err]
       :: (EvSend <$> sentinels (collector p) BalancesSub err),
     Returned tt).
Proof.
  intros Hr. unfold collectBalances. rewrite query_bind. simpl rpcClient.
  rewrite Hr. reflexivity.
Qed.

Lemma collectBalances_ok (p : P) (balances : list (string * float64)) :
  FetchBalances p (balanceAddresses (collector p)) = Ok balances →
  collectBalances FetchBalances (collector p)
  = (EvQuery (QFetchBalances (balanceAddresses (collector p)))
       :: (EvSend <$> (balance_obs (collector p) <$> balances)),
     Returned tt).
Proof.
  intros Hr. unfold collectBalances. rewrite query_bind. simpl rpcClient.
  rewrite Hr.
  rewrite (range_sends balances _ (λ ab, [balance_obs (collector p) ab])).
  2:{ intros [a b]. rewrite send_const_ok by reflexivity. reflexivity. }
  by rewrite list_bind_one.
Qed.

Lemma collectMinimumLedgerSlot_err (p : P) (err : GoError) :
  GetMinimumLedgerSlot p = Err err →
  collectMinimumLedgerSlot (collector p)
  = (EvQuery QGetMinimumLedgerSlot
       :: EvLog ErrorLevel "failed to get minimum lidger slot: %v"
            [ArgError err]
       :: (EvSend <$> sentinels (collector p) MinimumLedgerSlotSub err),
     Returned tt).
Proof.
  intros Hr. unfold collectMinimumLedgerSlot. rewrite query_bind.
  simpl rpcClient. rewrite Hr. reflexivity.
Qed.

Lemma collectMinimumLedgerSlot_ok (p : P) (slot : Z) :
  GetMinimumLedgerSlot p = Ok slot →
  collectMinimumLedgerSlot (collector p)
  = ([EvQuery QGetMinimumLedgerSlot;
      EvSend (ConstMetric (NodeMinimumLedgerSlot (collector p))
                (float64_of_int slot) [ident])],
     Returned tt).
Proof.
  intros Hr. unfold collectMinimumLedgerSlot. rewrite query_bind.
  simpl rpcClient. rewrite Hr. reflexivity.
Qed.

Lemma collectFirstAvailableBlock_err (p : P) (err : GoError) :
  GetFirstAvailableBlock p = Err err →
  collectFirstAvailableBlock (collector p)
  = (EvQuery QGetFirstAvailableBlock
       :: EvLog ErrorLevel "failed to get first available block: %v"
            [ArgError err]
       :: (EvSend <$> sentinels (collector p) FirstAvailableBlockSub err),
     Returned tt).
Proof.
  intros Hr. unfold collectFirstAvailableBlock. rewrite query_bind.
  simpl rpcClient. rewrite Hr. reflexivity.
Qed.

Lemma collectFirstAvailableBlock_ok (p : P) (block : Z) :
  GetFirstAvailableBlock p = Ok block →
  collectFirstAvailableBlock (collector p)
  = ([EvQuery QGetFirstAvailableBlock;
      EvSend (ConstMetric (NodeFirstAvailableBlock (collector p))
                (float64_of_int block) [ident])],
     Returned tt).
Proof.
  intros Hr. unfold collectFirstAvailableBlock. rewrite query_bind.
  simpl rpcClient. rewrite Hr. reflexivity.
Qed.

(** The four ways of [collectHealth]. *)
Lemma collectHealth_healthy (p : P) :
  GetHealth p = None →
  collectHealth UnpackRpcErrorData (collector p)
  = (EvQuery QGetHealth :: (EvSend <$> health_obs (collector p) 1 0), Returned tt).
Proof.
  intros Hr. unfold collectHealth. rewrite query_bind. simpl rpcClient.
  rewrite Hr. reflexivity.
Qed.

Lemma collectHealth_failure (p : P) (err : GoError) :
  health_failure (GetHealth p) = Some err →
  collectHealth UnpackRpcErrorData (collector p)
  = (EvQuery QGetHealth
       :: EvLog ErrorLevel "failed to get health: %v" [ArgError err]
       :: (EvSend <$> sentinels (collector p) HealthSub err),
     Returned tt).
Proof.
  intros Hr. unfold collectHealth. rewrite query_bind. simpl rpcClient.
  unfold health_failure in Hr.
  destruct (GetHealth p) as [e|]; [|done].
  destruct (errors_As e) as [r|]; [destruct (Data r); [done|]|];
    injection Hr as ->; reflexivity.
Qed.

Lemma collectHealth_unpacked (p : P) (err : GoError) (rpcError : RPCError)
    (payload : Payload) :
  GetHealth p = Some err →
  errors_As err = Some rpcError →
  Data rpcError = Some payload →
  UnpackRpcErrorData rpcError {| NumSlotsBehind := 0 |} = None →
  collectHealth UnpackRpcErrorData (collector p)
  = (EvQuery QGetHealth :: EvUnpack rpcError
       :: (EvSend <$> health_obs (collector p) 0 0),
     Returned tt).
Proof.
  intros Hr Has Hd Hu. unfold collectHealth. rewrite query_bind.
  simpl rpcClient. rewrite Hr, Has, Hd. simpl. rewrite Hu. reflexivity.
Qed.

Lemma collectHealth_fatal (p : P) (err err' : GoError) (rpcError : RPCError)
    (payload : Payload) :
  GetHealth p = Some err →
  errors_As err = Some rpcError →
  Data rpcError = Some payload →
  UnpackRpcErrorData rpcError {| NumSlotsBehind := 0 |} = Some err' →
  collectHealth UnpackRpcErrorData (collector p)
  = ([EvQuery QGetHealth; EvUnpack rpcError;
      EvLog FatalLevel "failed to unpack %s rpc error: %v"
        [ArgString (Method rpcError); ArgError err']],
     Exited).
Proof.
  intros Hr Has Hd Hu. unfold collectHealth. rewrite query_bind.
  simpl rpcClient. rewrite Hr, Has, Hd. simpl. rewrite Hu. reflexivity.
Qed.

(** *** Facts about every sub-collection *)

Lemma failure_health_cases (h : option GoError) :
  h = None
  ∨ (∃ err, h = Some err ∧ health_failure h = Some err)
  ∨ (∃ err rpcError payload,
       h = Some err ∧ errors_As err = Some rpcError
       ∧ Data rpcError = Some payload ∧ health_failure h = None).
Proof.
  destruct h as [err|]; [|by left]. right. unfold health_failure.
  destruct (errors_As err) as [r|] eqn:Has; [|left; eauto].
  destruct (Data r) as [payload|] eqn:Hd; [|left; eauto].
  right. by exists err, r, payload.
Qed.

(** All sub-collections but the health one return, whatever the upstream
    answers; the health one returns unless the payload is undecodable. *)
Lemma run_outcome (p : P) (k : SubCollection) :
  outcome (run FetchBalances UnpackRpcErrorData k (collector p))
  = if decide (k = HealthSub)
    then if undecodable UnpackRpcErrorData (GetHealth p)
         then Exited else Returned tt
    else Returned tt.
Proof.
  destruct k; simpl run; simpl decide.
  - destruct (GetVoteAccounts p CommitmentConfirmed None) as [va|err] eqn:Hr.
    + by rewrite (collectVoteAccounts_ok _ _ Hr).
    + by rewrite (collectVoteAccounts_err _ _ Hr).
  - destruct (GetVersion p) as [v|err] eqn:Hr.
    + by rewrite (collectVersion_ok _ _ Hr).
    + by rewrite (collectVersion_err _ _ Hr).
  - destruct (FetchBalances p (balanceAddresses (collector p)))
      as [b|err] eqn:Hr.
    + by rewrite (collectBalances_ok _ _ Hr).
    + by rewrite (collectBalances_err _ _ Hr).
  - destruct (failure_health_cases (GetHealth p))
      as [Hr|[(err & Hr & Hf)|(err & r & payload & Hr & Has & Hd & Hf)]].
    + rewrite (collectHealth_healthy _ Hr). by rewrite Hr.
    + rewrite (collectHealth_failure _ _ Hf).
      rewrite Hr in Hf |- *. unfold undecodable. simpl in Hf.
      destruct (errors_As err) as [r|]; [|done].
      by destruct (Data r).
    + unfold undecodable. rewrite Hr, Has, Hd.
      destruct (UnpackRpcErrorData r {| NumSlotsBehind := 0 |})
        as [err'|] eqn:Hu.
      * by rewrite (collectHealth_fatal _ _ _ _ _ Hr Has Hd Hu).
      * by rewrite (collectHealth_unpacked _ _ _ _ Hr Has Hd Hu).
  - destruct (GetMinimumLedgerSlot p) as [v|err] eqn:Hr.
    + by rewrite (collectMinimumLedgerSlot_ok _ _ Hr).
    + by rewrite (collectMinimumLedgerSlot_err _ _ Hr).
  - destruct (GetFirstAvailableBlock p) as [v|err] eqn:Hr.
    + by rewrite (collectFirstAvailableBlock_ok _ _ Hr).
    + by rewrite (collectFirstAvailableBlock_err _ _ Hr).
Qed.

(** A failing sub-collection sends its sentinels and nothing else. *)
Lemma run_sent_failure (p : P) (k : SubCollection) (err : GoError) :
  failure FetchBalances p (balanceAddresses (collector p)) k = Some err →
  sent (trace (run FetchBalances UnpackRpcErrorData k (collector p)))
  = sentinels (collector p) k err.
Proof.
  destruct k; unfold failure, run; intros Hf.
  - destruct (GetVoteAccounts p CommitmentConfirmed None) as [va|e] eqn:Hr;
      [done|]. injection Hf as ->.
    rewrite (collectVoteAccounts_err _ _ Hr). by sent_simpl.
  - destruct (GetVersion p) as [v|e] eqn:Hr; [done|]. injection Hf as ->.
    rewrite (collectVersion_err _ _ Hr). by sent_simpl.
  - destruct (FetchBalances p (balanceAddresses (collector p)))
      as [b|e] eqn:Hr; [done|]. injection Hf as ->.
    rewrite (collectBalances_err _ _ Hr). by sent_simpl.
  - rewrite (collectHealth_failure _ _ Hf). by sent_simpl.
  - destruct (GetMinimumLedgerSlot p) as [v|e] eqn:Hr; [done|].
    injection Hf as ->.
    rewrite (collectMinimumLedgerSlot_err _ _ Hr). by sent_simpl.
  - destruct (GetFirstAvailableBlock p) as [v|e] eqn:Hr; [done|].
    injection Hf as ->.
    rewrite (collectFirstAvailableBlock_err _ _ Hr). by sent_simpl.
Qed.

(** A sub-collection sends metrics of its own families only, and either
    sentinels only (when it fails) or gauge samples only. *)
Lemma run_sent_own (p : P) (k : SubCollection) :
  Forall (λ m, family m ∈ families (collector p) k
               ∧ is_invalid m
                 = fails FetchBalances p (balanceAddresses (collector p)) k)
    (sent (trace (run FetchBalances UnpackRpcErrorData k (collector p)))).
Proof.
  destruct (failure FetchBalances p (balanceAddresses (collector p)) k)
    as [err|] eqn:Hf; unfold fails; rewrite Hf.
  { rewrite (run_sent_failure _ _ _ Hf). unfold sentinels.
    apply Forall_fmap, Forall_forall. intros d Hd. split; [|done].
    unfold families. by apply (list_elem_of_fmap_2 Name). }
  destruct k; unfold failure in Hf; unfold run.
  - destruct (GetVoteAccounts p CommitmentConfirmed None) as [va|e] eqn:Hr;
      [|done].
    rewrite (collectVoteAccounts_ok _ _ Hr). sent_simpl.
    unfold vote_accounts_obs. rewrite !Forall_app. repeat split.
    + repeat constructor; names.
    + apply Forall_bind, Forall_forall. intros a _.
      repeat constructor; names.
    + apply Forall_fmap, Forall_forall. intros a _. split; [names|done].
    + apply Forall_fmap, Forall_forall. intros a _. split; [names|done].
  - destruct (GetVersion p) as [v|e] eqn:Hr; [|done].
    rewrite (collectVersion_ok _ _ Hr). sent_simpl.
    repeat constructor; names.
  - destruct (FetchBalances p (balanceAddresses (collector p)))
      as [b|e] eqn:Hr; [|done].
    rewrite (collectBalances_ok _ _ Hr). sent_simpl.
    apply Forall_fmap, Forall_forall. intros a _. split; [names|done].
  - destruct (failure_health_cases (GetHealth p))
      as [Hr|[(err & Hr & Hf')|(err & r & payload & Hr & Has & Hd & _)]].
    + rewrite (collectHealth_healthy _ Hr). sent_simpl.
      repeat constructor; names.
    + congruence.
    + destruct (UnpackRpcErrorData r {| NumSlotsBehind := 0 |})
        as [err'|] eqn:Hu.
      * rewrite (collectHealth_fatal _ _ _ _ _ Hr Has Hd Hu). constructor.
      * rewrite (collectHealth_unpacked _ _ _ _ Hr Has Hd Hu). sent_simpl.
        repeat constructor; names.
  - destruct (GetMinimumLedgerSlot p) as [v|e] eqn:Hr; [|done].
    rewrite (collectMinimumLedgerSlot_ok _ _ Hr). sent_simpl.
    repeat constructor; names.
  - destruct (GetFirstAvailableBlock p) as [v|e] eqn:Hr; [|done].
    rewrite (collectFirstAvailableBlock_ok _ _ Hr). sent_simpl.
    repeat constructor; names.
Qed.

(** The families of two sub-collections are apart. *)
Lemma families_apart (p : P) (j k : SubCollection) (n : string) :
  j ≠ k →
  n ∈ families (collector p) j → n ∉ families (collector p) k.
Proof.
  intros Hjk. revert n. apply Forall_forall.
  destruct j, k; try done; names.
Qed.

Lemma of_sub_app (c : SolanaCollector P) (k : SubCollection)
    (ms ms' : list Metric) :
  of_sub c k (ms ++ ms') = of_sub c k ms ++ of_sub c k ms'.
Proof. apply filter_app. Qed.

Lemma not_of_sub_app (c : SolanaCollector P) (k : SubCollection)
    (ms ms' : list Metric) :
  not_of_sub c k (ms ++ ms') = not_of_sub c k ms ++ not_of_sub c k ms'.
Proof. apply filter_app. Qed.

Lemma of_family_app (n : string) (ms ms' : list Metric) :
  of_family n (ms ++ ms') = of_family n ms ++ of_family n ms'.
Proof. apply filter_app. Qed.

Abbreviation part p k :=
  (sent (trace (run FetchBalances UnpackRpcErrorData k (collector p)))).

Lemma of_sub_own (p : P) (k : SubCollection) :
  of_sub (collector p) k (part p k) = part p k.
Proof.
  apply filter_all. eapply Forall_impl; [apply run_sent_own|].
  by intros m [Hm _].
Qed.

Lemma of_sub_other (p : P) (j k : SubCollection) :
  j ≠ k → of_sub (collector p) k (part p j) = [].
Proof.
  intros Hjk. apply filter_none.
  eapply Forall_impl; [apply run_sent_own|].
  intros m [Hm _]. by apply (families_apart p j k).
Qed.

Lemma not_of_sub_own (p : P) (k : SubCollection) :
  not_of_sub (collector p) k (part p k) = [].
Proof.
  apply filter_none. eapply Forall_impl; [apply run_sent_own|].
  intros m [Hm _]. tauto.
Qed.

Lemma not_of_sub_other (p : P) (j k : SubCollection) :
  j ≠ k → not_of_sub (collector p) k (part p j) = part p j.
Proof.
  intros Hjk. apply filter_all.
  eapply Forall_impl; [apply run_sent_own|].
  intros m [Hm _]. by apply (families_apart p j k).
Qed.

Lemma of_family_other (p : P) (j k : SubCollection) (n : string) :
  j ≠ k → n ∈ families (collector p) k → of_family n (part p j) = [].
Proof.
  intros Hjk Hn. apply filter_none.
  eapply Forall_impl; [apply run_sent_own|].
  intros m [Hm _] <-. by apply (families_apart p j k (family m)).
Qed.

(** Each sub-collection asks the upstream its one query. *)
Lemma run_queries (p : P) (k : SubCollection) :
  queries (trace (run FetchBalances UnpackRpcErrorData k (collector p)))
  = [query_of (collector p) k].
Proof.
  destruct k; unfold run, query_of.
  - destruct (GetVoteAccounts p CommitmentConfirmed None) as [va|err] eqn:Hr.
    + rewrite (collectVoteAccounts_ok _ _ Hr). by queries_simpl.
    + rewrite (collectVoteAccounts_err _ _ Hr). by queries_simpl.
  - destruct (GetVersion p) as [v|err] eqn:Hr.
    + by rewrite (collectVersion_ok _ _ Hr).
    + rewrite (collectVersion_err _ _ Hr). by queries_simpl.
  - destruct (FetchBalances p (balanceAddresses (collector p)))
      as [b|err] eqn:Hr.
    + rewrite (collectBalances_ok _ _ Hr). by queries_simpl.
    + rewrite (collectBalances_err _ _ Hr). by queries_simpl.
  - destruct (failure_health_cases (GetHealth p))
      as [Hr|[(err & Hr & Hf)|(err & r & payload & Hr & Has & Hd & Hf)]].
    + rewrite (collectHealth_healthy _ Hr). by queries_simpl.
    + rewrite (collectHealth_failure _ _ Hf). by queries_simpl.
    + destruct (UnpackRpcErrorData r {| NumSlotsBehind := 0 |})
        as [err'|] eqn:Hu.
      * by rewrite (collectHealth_fatal _ _ _ _ _ Hr Has Hd Hu).
      * rewrite (collectHealth_unpacked _ _ _ _ Hr Has Hd Hu).
        by queries_simpl.
  - destruct (GetMinimumLedgerSlot p) as [v|err] eqn:Hr.
    + by rewrite (collectMinimumLedgerSlot_ok _ _ Hr).
    + rewrite (collectMinimumLedgerSlot_err _ _ Hr). by queries_simpl.
  - destruct (GetFirstAvailableBlock p) as [v|err] eqn:Hr.
    + by rewrite (collectFirstAvailableBlock_ok _ _ Hr).
    + rewrite (collectFirstAvailableBlock_err _ _ Hr). by queries_simpl.
Qed.

(** A sub-collection reads nothing of the client but the answer to its
    own query. *)
Lemma run_same_response (p p' : P) (k : SubCollection) :
  same_response FetchBalances (balanceAddresses (collector p)) k p p' →
  run FetchBalances UnpackRpcErrorData k (collector p)
  = run FetchBalances UnpackRpcErrorData k (collector p').
Proof.
  destruct k; unfold same_response, run; intros Hr.
  - unfold collectVoteAccounts. rewrite !query_bind. simpl rpcClient.
    by rewrite Hr.
  - unfold collectVersion. rewrite !query_bind. simpl rpcClient.
    by rewrite Hr.
  - unfold collectBalances. rewrite !query_bind. simpl rpcClient.
    change (balanceAddresses (collector p'))
      with (balanceAddresses (collector p)).
    by rewrite Hr.
  - unfold collectHealth. rewrite !query_bind. simpl rpcClient.
    by rewrite Hr.
  - unfold collectMinimumLedgerSlot. rewrite !query_bind. simpl rpcClient.
    by rewrite Hr.
  - unfold collectFirstAvailableBlock. rewrite !query_bind.
    simpl rpcClient. by rewrite Hr.
Qed.

(** *** The scrape as the sequence of its sub-collections *)

Abbreviation sub p k :=
  (run FetchBalances UnpackRpcErrorData k (collector p)).

Lemma Collect_eq (p : P) :
  Collect FetchBalances UnpackRpcErrorData (collector p)
  = (trace (sub p VoteAccountsSub) ++ trace (sub p VersionSub)
       ++ trace (sub p BalancesSub) ++ trace (sub p HealthSub)
       ++ (if undecodable UnpackRpcErrorData (GetHealth p) then []
           else trace (sub p MinimumLedgerSlotSub)
                  ++ trace (sub p FirstAvailableBlockSub)),
     if undecodable UnpackRpcErrorData (GetHealth p)
     then Exited else Returned tt).
Proof.
  change (Collect FetchBalances UnpackRpcErrorData (collector p))
    with (sub p VoteAccountsSub;; sub p VersionSub;; sub p BalancesSub;;
          sub p HealthSub;; sub p MinimumLedgerSlotSub;;
          sub p FirstAvailableBlockSub).
  pose proof (run_outcome p HealthSub) as Hh. simpl decide in Hh.
  pose proof (run_outcome p MinimumLedgerSlotSub) as Hm.
  pose proof (run_outcome p FirstAvailableBlockSub) as Hb.
  simpl decide in Hm, Hb.
  destruct (undecodable UnpackRpcErrorData (GetHealth p)).
  - rewrite (seq_exited (sub p HealthSub)) by done.
    rewrite (seq_returned (sub p BalancesSub)) by apply (run_outcome p BalancesSub).
    rewrite (seq_returned (sub p VersionSub)) by apply (run_outcome p VersionSub).
    rewrite (seq_returned (sub p VoteAccountsSub))
      by apply (run_outcome p VoteAccountsSub).
    rewrite !trace_pair, !outcome_pair. by rewrite app_nil_r.
  - rewrite (seq_returned (sub p MinimumLedgerSlotSub)) by done.
    rewrite (seq_returned (sub p HealthSub)) by done.
    rewrite (seq_returned (sub p BalancesSub)) by apply (run_outcome p BalancesSub).
    rewrite (seq_returned (sub p VersionSub)) by apply (run_outcome p VersionSub).
    rewrite (seq_returned (sub p VoteAccountsSub))
      by apply (run_outcome p VoteAccountsSub).
    rewrite !trace_pair, !outcome_pair. by rewrite Hb.
Qed.

Lemma Collect_sent (p : P) :
  sent (trace (Collect FetchBalances UnpackRpcErrorData (collector p)))
  = part p VoteAccountsSub ++ part p VersionSub ++ part p BalancesSub
      ++ part p HealthSub
      ++ (if undecodable UnpackRpcErrorData (GetHealth p) then []
          else part p MinimumLedgerSlotSub ++ part p FirstAvailableBlockSub).
Proof.
  rewrite Collect_eq, trace_pair, !sent_app.
  destruct (undecodable UnpackRpcErrorData (GetHealth p)); [done|].
  by rewrite sent_app.
Qed.

Lemma Collect_outcome (p : P) :
  outcome (Collect FetchBalances UnpackRpcErrorData (collector p))
  = if undecodable UnpackRpcErrorData (GetHealth p)
    then Exited else Returned tt.
Proof. by rewrite Collect_eq. Qed.

Lemma Collect_queries (p : P) :
  queries (trace (Collect FetchBalances UnpackRpcErrorData (collector p)))
  = (query_of (collector p) <$>
       [VoteAccountsSub; VersionSub; BalancesSub; HealthSub])
    ++ (if undecodable UnpackRpcErrorData (GetHealth p) then []
        else query_of (collector p) <$>
               [MinimumLedgerSlotSub; FirstAvailableBlockSub]).
Proof.
  rewrite Collect_eq, trace_pair, !queries_app.
  destruct (undecodable UnpackRpcErrorData (GetHealth p));
    rewrite ?queries_app, !run_queries; reflexivity.
Qed.

(** The metrics of the families of [k] in a scrape are the ones [k] sent,
    when the scrape gets as far as [k]. *)
Lemma of_sub_Collect (p : P) (k : SubCollection) :
  (after_health k = true →
   undecodable UnpackRpcErrorData (GetHealth p) = false) →
  of_sub (collector p) k
    (sent (trace (Collect FetchBalances UnpackRpcErrorData (collector p))))
  = part p k.
Proof.
  intros Hk. rewrite Collect_sent, !of_sub_app.
  destruct (undecodable UnpackRpcErrorData (GetHealth p)).
  - destruct k; try (by discriminate Hk);
      rewrite of_sub_own, !of_sub_other by done;
      by rewrite ?app_nil_r.
  - rewrite of_sub_app.
    destruct k; rewrite of_sub_own, !of_sub_other by done;
      by rewrite ?app_nil_r.
Qed.

Lemma of_family_of_sub (c : SolanaCollector P) (k : SubCollection)
    (n : string) (ms : list Metric) :
  n ∈ families c k → of_family n (of_sub c k ms) = of_family n ms.
Proof.
  intros Hn. unfold of_family, of_sub.
  induction ms as [|m ms IH]; [done|].
  destruct (decide (family m = n)) as [Hm|Hm].
  - rewrite (filter_cons_True (λ m, family m ∈ families c k))
      by by rewrite Hm.
    by rewrite !(filter_cons_True (λ m, family m = n)), IH.
  - rewrite (filter_cons_False (λ m, family m = n) m ms) by done.
    destruct (decide (family m ∈ families c k)).
    + rewrite (filter_cons_True (λ m, family m ∈ families c k)) by done.
      by rewrite filter_cons_False.
    + by rewrite (filter_cons_False (λ m, family m ∈ families c k)).
Qed.

Lemma of_family_Collect (p : P) (k : SubCollection) (n : string) :
  n ∈ families (collector p) k →
  (after_health k = true →
   undecodable UnpackRpcErrorData (GetHealth p) = false) →
  of_family n
    (sent (trace (Collect FetchBalances UnpackRpcErrorData (collector p))))
  = of_family n (part p k).
Proof.
  intros Hn Hk.
  rewrite <- (of_family_of_sub (collector p) k n) by done.
  by rewrite of_sub_Collect.
Qed.

Lemma not_of_sub_part_agree (p p' : P) (j k : SubCollection) :
  (j ≠ k →
   same_response FetchBalances (balanceAddresses (collector p)) j p p') →
  not_of_sub (collector p) k (part p j)
  = not_of_sub (collector p) k (part p' j).
Proof.
  intros Hsame. destruct (decide (j = k)) as [->|Hjk].
  - rewrite not_of_sub_own.
    change (not_of_sub (collector p) k) with (not_of_sub (collector p') k).
    by rewrite not_of_sub_own.
  - by rewrite (run_same_response p p' j (Hsame Hjk)).
Qed.

(** Two scrapes whose upstreams differ in the answer to the query of [k]
    at most, and which both exit or both return, send the same metrics of
    the families that are not those of [k]. *)
Lemma not_of_sub_Collect_agree (p p' : P) (k : SubCollection) :
  (∀ j, j ≠ k →
     same_response FetchBalances (balanceAddresses (collector p)) j p p') →
  undecodable UnpackRpcErrorData (GetHealth p)
  = undecodable UnpackRpcErrorData (GetHealth p') →
  not_of_sub (collector p) k
    (sent (trace (Collect FetchBalances UnpackRpcErrorData (collector p))))
  = not_of_sub (collector p) k
      (sent (trace (Collect FetchBalances UnpackRpcErrorData (collector p')))).
Proof.
  intros Hsame Hu. rewrite !Collect_sent, <- Hu, !not_of_sub_app.
  rewrite (not_of_sub_part_agree p p' VoteAccountsSub k) by auto.
  rewrite (not_of_sub_part_agree p p' VersionSub k) by auto.
  rewrite (not_of_sub_part_agree p p' BalancesSub k) by auto.
  rewrite (not_of_sub_part_agree p p' HealthSub k) by auto.
  do 4 f_equal.
  destruct (undecodable UnpackRpcErrorData (GetHealth p)); [done|].
  rewrite !not_of_sub_app.
  rewrite (not_of_sub_part_agree p p' MinimumLedgerSlotSub k) by auto.
  by rewrite (not_of_sub_part_agree p p' FirstAvailableBlockSub k) by auto.
Qed.

(** *** The vote-accounts families of a successful query *)

Lemma of_family_cons_eq (n : string) (m : Metric) (ms : list Metric) :
  family m = n → of_family n (m :: ms) = m :: of_family n ms.
Proof. intros Hm. unfold of_family. by rewrite filter_cons_True. Qed.

Lemma of_family_cons_ne (n : string) (m : Metric) (ms : list Metric) :
  family m ≠ n → of_family n (m :: ms) = of_family n ms.
Proof. intros Hm. unfold of_family. by rewrite filter_cons_False. Qed.

Ltac pick_family :=
  repeat first [ rewrite of_family_cons_eq by names
               | rewrite of_family_cons_ne by names ];
  try reflexivity.

Lemma of_family_fmap_all {A : Type} (n : string) (f : A → Metric)
    (xs : list A) :
  (∀ a, family (f a) = n) → of_family n (f <$> xs) = f <$> xs.
Proof. intros Hf. by apply filter_fmap_all. Qed.

Lemma of_family_fmap_none {A : Type} (n : string) (f : A → Metric)
    (xs : list A) :
  (∀ a, family (f a) ≠ n) → of_family n (f <$> xs) = [].
Proof. intros Hf. by apply filter_fmap_none. Qed.

Lemma of_family_bind_one {A : Type} (n : string) (f : A → list Metric)
    (g : A → Metric) (xs : list A) :
  (∀ a, of_family n (f a) = [g a]) → of_family n (xs ≫= f) = g <$> xs.
Proof. intros Hf. by apply filter_bind_one. Qed.

Lemma of_family_bind_nil {A : Type} (n : string) (f : A → list Metric)
    (xs : list A) :
  (∀ a, of_family n (f a) = []) → of_family n (xs ≫= f) = [].
Proof. intros Hf. by apply filter_bind_nil. Qed.

Lemma vote_accounts_active (p : P) (va : VoteAccounts) :
  of_family "solana_validator_active" (vote_accounts_obs (collector p) va)
  = validator_active_obs (collector p) va.
Proof.
  unfold vote_accounts_obs. rewrite !of_family_app.
  rewrite (of_family_bind_nil _ (per_validator_obs (collector p)))
    by (intros a; unfold per_validator_obs; pick_family).
  rewrite !of_family_fmap_none by (intros a; names).
  rewrite !app_nil_r. unfold validator_active_obs. pick_family.
Qed.

Lemma vote_accounts_stake (p : P) (va : VoteAccounts) :
  of_family "solana_validator_active_stake"
    (vote_accounts_obs (collector p) va)
  = stake_obs (collector p) <$> (Current va ++ Delinquent va).
Proof.
  unfold vote_accounts_obs. rewrite !of_family_app.
  rewrite (of_family_bind_one _ (per_validator_obs (collector p))
             (stake_obs (collector p)))
    by (intros a; unfold per_validator_obs; pick_family).
  rewrite !of_family_fmap_none by (intros a; names).
  rewrite !app_nil_r. unfold validator_active_obs. pick_family.
Qed.

Lemma vote_accounts_last_vote (p : P) (va : VoteAccounts) :
  of_family "solana_validator_last_vote"
    (vote_accounts_obs (collector p) va)
  = last_vote_obs (collector p) <$> (Current va ++ Delinquent va).
Proof.
  unfold vote_accounts_obs. rewrite !of_family_app.
  rewrite (of_family_bind_one _ (per_validator_obs (collector p))
             (last_vote_obs (collector p)))
    by (intros a; unfold per_validator_obs; pick_family).
  rewrite !of_family_fmap_none by (intros a; names).
  rewrite !app_nil_r. unfold validator_active_obs. pick_family.
Qed.

Lemma vote_accounts_root_slot (p : P) (va : VoteAccounts) :
  of_family "solana_validator_root_slot"
    (vote_accounts_obs (collector p) va)
  = root_slot_obs (collector p) <$> (Current va ++ Delinquent va).
Proof.
  unfold vote_accounts_obs. rewrite !of_family_app.
  rewrite (of_family_bind_one _ (per_validator_obs (collector p))
             (root_slot_obs (collector p)))
    by (intros a; unfold per_validator_obs; pick_family).
  rewrite !of_family_fmap_none by (intros a; names).
  rewrite !app_nil_r. unfold validator_active_obs. pick_family.
Qed.

Lemma vote_accounts_delinquent (p : P) (va : VoteAccounts) :
  of_family "solana_validator_delinquent"
    (vote_accounts_obs (collector p) va)
  = (delinquent_obs (collector p) 0 <$> Current va)
    ++ (delinquent_obs (collector p) 1 <$> Delinquent va).
Proof.
  unfold vote_accounts_obs. rewrite !of_family_app.
  rewrite (of_family_bind_nil _ (per_validator_obs (collector p)))
    by (intros a; unfold per_validator_obs; pick_family).
  rewrite !of_family_fmap_all by (intros a; names).
  unfold validator_active_obs. pick_family.
Qed.

(** The metrics of a vote-accounts family in a scrape whose vote-accounts
    query succeeded. *)
Lemma of_family_Collect_vote_accounts (p : P) (va : VoteAccounts)
    (n : string) :
  GetVoteAccounts p CommitmentConfirmed None = Ok va →
  n ∈ families (collector p) VoteAccountsSub →
  of_family n
    (sent (trace (Collect FetchBalances UnpackRpcErrorData (collector p))))
  = of_family n (vote_accounts_obs (collector p) va).
Proof.
  intros Hr Hn. rewrite (of_family_Collect p VoteAccountsSub) by done.
  unfold run. rewrite (collectVoteAccounts_ok _ _ Hr). by sent_simpl.
Qed.

(** ** Vote accounts: the two counts *)

(** C6: in a scrape whose vote-accounts query succeeds, the
    validator_active family has exactly two observations, the count of the
    delinquent validators labeled delinquent and the count of the current
    ones labeled current; with counts that a float64 holds exactly (up to
    2^53), their values are the two lengths and add up to
    len(current) + len(delinquent). *)
Theorem validator_active_counts (p : P) (va : VoteAccounts) :
  GetVoteAccounts p CommitmentConfirmed None = Ok va →
  let obs :=
    of_family "solana_validator_active"
      (sent (trace (Collect FetchBalances UnpackRpcErrorData (collector p))))
  in
  obs = [ConstMetric (ValidatorActive (collector p))
           (float64_of_int (len (Delinquent va))) ["delinquent"];
         ConstMetric (ValidatorActive (collector p))
           (float64_of_int (len (Current va))) ["current"]]
  ∧ length obs = 2%nat
  ∧ (len (Current va) ≤ 2 ^ 53 → len (Delinquent va) ≤ 2 ^ 53 →
     value_of <$> obs
     = [Some (inject_Z (len (Delinquent va)));
        Some (inject_Z (len (Current va)))]
     ∧ (sum_of_values obs
        == inject_Z (len (Current va) + len (Delinquent va)))%Q).
Proof.
  intros Hr obs.
  assert (obs = validator_active_obs (collector p) va) as Hobs.
  { unfold obs. rewrite (of_family_Collect_vote_accounts p va) by (done || names).
    apply vote_accounts_active. }
  rewrite Hobs. unfold validator_active_obs. split; [done|]. split; [done|].
  intros Hc Hd.
  pose proof (len_nonneg (Current va)). pose proof (len_nonneg (Delinquent va)).
  rewrite !float64_of_int_exact by lia. split; [done|].
  unfold sum_of_values, default. cbn [foldr value_of from_option id].
  rewrite Qplus_0_r, <- inject_Z_plus. by rewrite Z.add_comm.
Qed.

(** ** Vote accounts: the per-validator families *)

Lemma with_labels_fmap (f : VoteAccount → Metric) (xs : list VoteAccount)
    (l : list string) :
  (∀ x, labels_of (f x) = Some (keys x)) →
  with_labels l (f <$> xs) = f <$> filter (λ x, keys x = l) xs.
Proof.
  intros Hf. unfold with_labels.
  induction xs as [|x xs IH]; [done|]. rewrite fmap_cons.
  destruct (decide (keys x = l)) as [Hx|Hx].
  - rewrite filter_cons_True by (rewrite Hf; congruence).
    rewrite (filter_cons_True (λ x, keys x = l)) by done.
    by rewrite fmap_cons, IH.
  - rewrite filter_cons_False by (rewrite Hf; congruence).
    by rewrite (filter_cons_False (λ x, keys x = l)).
Qed.

Lemma with_labels_app (l : list string) (ms ms' : list Metric) :
  with_labels l (ms ++ ms') = with_labels l ms ++ with_labels l ms'.
Proof. apply filter_app. Qed.

Lemma with_labels_one (f : VoteAccount → Metric) (xs : list VoteAccount)
    (a : VoteAccount) :
  (∀ x, labels_of (f x) = Some (keys x)) →
  NoDup (keys <$> xs) → a ∈ xs →
  with_labels (keys a) (f <$> xs) = [f a].
Proof.
  intros Hf Hnd Ha. rewrite with_labels_fmap by done.
  by rewrite (filter_key_in keys).
Qed.



(** C10: without any assumption on the two partitions, a scrape whose
    vote-accounts query succeeds has len(current) + len(delinquent)
    observations in each of validator_active_stake, validator_last_vote,
    validator_root_slot and validator_delinquent; a record that is in both
    partitions has, under its label pair, a validator_delinquent
    observation of value 0 and one of value 1, and exactly these two when
    it occurs once in each partition. *)
Theorem shared_record_observed_twice (p : P) (va : VoteAccounts) :
  GetVoteAccounts p CommitmentConfirmed None = Ok va →
  let ms :=
    sent (trace (Collect FetchBalances UnpackRpcErrorData (collector p))) in
  let total := (length (Current va) + length (Delinquent va))%nat in
  length (of_family "solana_validator_active_stake" ms) = total
  ∧ length (of_family "solana_validator_last_vote" ms) = total
  ∧ length (of_family "solana_validator_root_slot" ms) = total
  ∧ length (of_family "solana_validator_delinquent" ms) = total
  ∧ ∀ a, a ∈ Current va → a ∈ Delinquent va →
      let obs :=
        with_labels (keys a) (of_family "solana_validator_delinquent" ms) in
      let zero :=
        ConstMetric (ValidatorDelinquent (collector p)) 0%Q
          [VotePubkey a; NodePubkey a] in
      let one :=
        ConstMetric (ValidatorDelinquent (collector p)) 1%Q
          [VotePubkey a; NodePubkey a] in
      zero ∈ obs ∧ one ∈ obs ∧ zero ≠ one ∧ (2 ≤ length obs)%nat
      ∧ (NoDup (keys <$> Current va) → NoDup (keys <$> Delinquent va) →
         obs = [zero; one]).
Proof.
  intros Hr ms total. unfold ms, total.
  rewrite !(of_family_Collect_vote_accounts p va) by (done || names).
  rewrite vote_accounts_stake, vote_accounts_last_vote,
    vote_accounts_root_slot, vote_accounts_delinquent.
  rewrite length_app, !length_fmap, length_app.
  do 4 (split; [done|]).
  intros a Hc Hd. cbv zeta. rewrite with_labels_app.
  set (zero := ConstMetric (ValidatorDelinquent (collector p)) 0%Q
                 [VotePubkey a; NodePubkey a]).
  set (one := ConstMetric (ValidatorDelinquent (collector p)) 1%Q
                [VotePubkey a; NodePubkey a]).
  assert (zero ∈ with_labels (keys a)
                   (delinquent_obs (collector p) 0 <$> Current va)) as H0.
  { apply list_elem_of_filter. split; [done|].
    by apply (list_elem_of_fmap_2 (delinquent_obs (collector p) 0)). }
  assert (one ∈ with_labels (keys a)
                  (delinquent_obs (collector p) 1 <$> Delinquent va)) as H1.
  { apply list_elem_of_filter. split; [done|].
    by apply (list_elem_of_fmap_2 (delinquent_obs (collector p) 1)). }
  split; [apply elem_of_app; by left|].
  split; [apply elem_of_app; by right|].
  split; [done|]. split.
  - rewrite length_app.
    destruct (with_labels (keys a)
                (delinquent_obs (collector p) 0 <$> Current va));
      [by apply elem_of_nil in H0|].
    destruct (with_labels (keys a)
                (delinquent_obs (collector p) 1 <$> Delinquent va));
      [by apply elem_of_nil in H1|].
    simpl. lia.
  - intros Hndc Hndd. by rewrite !with_labels_one.
Qed.

(** ** Failure of the vote-accounts query *)

Lemma undecodable_same_health (p p' : P) :
  GetHealth p = GetHealth p' →
  undecodable UnpackRpcErrorData (GetHealth p)
  = undecodable UnpackRpcErrorData (GetHealth p').
Proof. by intros ->. Qed.

(** C3: in a scrape whose vote-accounts query fails, each of the five
    vote-account families has its failure sentinel as its only
    observation, and the observations of all other families are those of
    the scrape in which the vote-accounts query succeeds and every other
    query is answered alike. *)
Theorem vote_accounts_failure_contained (p : P) (err : GoError) :
  GetVoteAccounts p CommitmentConfirmed None = Err err →
  let ms :=
    sent (trace (Collect FetchBalances UnpackRpcErrorData (collector p))) in
  of_family "solana_validator_active" ms
  = [InvalidMetric (ValidatorActive (collector p)) err]
  ∧ of_family "solana_validator_active_stake" ms
    = [InvalidMetric (ValidatorActiveStake (collector p)) err]
  ∧ of_family "solana_validator_last_vote" ms
    = [InvalidMetric (ValidatorLastVote (collector p)) err]
  ∧ of_family "solana_validator_root_slot" ms
    = [InvalidMetric (ValidatorRootSlot (collector p)) err]
  ∧ of_family "solana_validator_delinquent" ms
    = [InvalidMetric (ValidatorDelinquent (collector p)) err]
  ∧ of_sub (collector p) VoteAccountsSub ms
    = sentinels (collector p) VoteAccountsSub err
  ∧ ∀ (p' : P) (va : VoteAccounts),
      GetVoteAccounts p' CommitmentConfirmed None = Ok va →
      (∀ j, j ≠ VoteAccountsSub →
         same_response FetchBalances (balanceAddresses (collector p)) j p p') →
      not_of_sub (collector p) VoteAccountsSub ms
      = not_of_sub (collector p) VoteAccountsSub
          (sent (trace (Collect FetchBalances UnpackRpcErrorData
                          (collector p')))).
Proof.
  intros Hr ms. unfold ms.
  assert (part p VoteAccountsSub = sentinels (collector p) VoteAccountsSub err)
    as Hpart by (apply run_sent_failure; unfold failure; by rewrite Hr).
  rewrite !(of_family_Collect p VoteAccountsSub) by (done || names).
  rewrite (of_sub_Collect p VoteAccountsSub) by done.
  rewrite Hpart. unfold sentinels, owned. cbn [fmap list_fmap].
  unfold NewInvalidMetric.
  do 5 (split; [pick_family|]). split; [done|].
  intros p' va Hr' Hsame. apply not_of_sub_Collect_agree; [done|].
  apply undecodable_same_health. by apply (Hsame HealthSub).
Qed.

(** ** The health sub-collection *)

(** C4: when the health query fails with an error that is no RPC error,
    or with an RPC error that has no payload, the health sub-collection
    logs the error, sends one failure sentinel for node_is_healthy and one
    for node_num_slots_behind, and returns; it decodes no payload, and the
    two sentinels are the only observations of the two families in the
    scrape. *)
Theorem health_error_gives_sentinels (p : P) (err : GoError) :
  GetHealth p = Some err →
  (errors_As err = None
   ∨ ∃ rpcError, errors_As err = Some rpcError ∧ Data rpcError = None) →
  let ms :=
    sent (trace (Collect FetchBalances UnpackRpcErrorData (collector p))) in
  collectHealth UnpackRpcErrorData (collector p)
  = ([EvQuery QGetHealth;
      EvLog ErrorLevel "failed to get health: %v" [ArgError err];
      EvSend (InvalidMetric (NodeIsHealthy (collector p)) err);
      EvSend (InvalidMetric (NodeNumSlotsBehind (collector p)) err)],
     Returned tt)
  ∧ unpacks (trace (collectHealth UnpackRpcErrorData (collector p))) = []
  ∧ of_family "solana_node_is_healthy" ms
    = [InvalidMetric (NodeIsHealthy (collector p)) err]
  ∧ of_family "solana_node_num_slots_behind" ms
    = [InvalidMetric (NodeNumSlotsBehind (collector p)) err].
Proof.
  intros Hr Hkind ms.
  assert (health_failure (GetHealth p) = Some err) as Hf.
  { rewrite Hr. unfold health_failure.
    destruct Hkind as [->|(r & -> & ->)]; done. }
  assert (undecodable UnpackRpcErrorData (GetHealth p) = false) as Hu.
  { rewrite Hr. unfold undecodable.
    destruct Hkind as [->|(r & -> & ->)]; done. }
  pose proof (collectHealth_failure p err Hf) as Hrun.
  split; [done|]. split; [by rewrite Hrun|].
  unfold ms. rewrite !(of_family_Collect p HealthSub) by (done || names).
  unfold run. rewrite Hrun. sent_simpl.
  unfold sentinels, owned, NewInvalidMetric. cbn [fmap list_fmap].
  split; pick_family.
Qed.

(** C5: when the health query fails with an RPC error whose payload is
    present and [UnpackRpcErrorData] cannot decode it, the scrape ends the
    process inside the health sub-collection: no observation of
    node_is_healthy or node_num_slots_behind is sent, the fatal log line is
    the last thing the scrape does, and the two queries after the health
    one are never made. *)
Theorem undecodable_payload_is_fatal (p : P) (err err' : GoError)
    (rpcError : RPCError) (payload : Payload) :
  GetHealth p = Some err →
  errors_As err = Some rpcError →
  Data rpcError = Some payload →
  UnpackRpcErrorData rpcError {| NumSlotsBehind := 0 |} = Some err' →
  let m := Collect FetchBalances UnpackRpcErrorData (collector p) in
  outcome m = Exited
  ∧ of_sub (collector p) HealthSub (sent (trace m)) = []
  ∧ trace m
    = trace (collectVoteAccounts (collector p))
      ++ trace (collectVersion (collector p))
      ++ trace (collectBalances FetchBalances (collector p))
      ++ [EvQuery QGetHealth; EvUnpack rpcError;
          EvLog FatalLevel "failed to unpack %s rpc error: %v"
            [ArgString (Method rpcError); ArgError err']]
  ∧ queries (trace m)
    = [QGetVoteAccounts CommitmentConfirmed None; QGetVersion;
       QFetchBalances (balanceAddresses (collector p)); QGetHealth].
Proof.
  intros Hr Has Hd Hunpack m. unfold m.
  assert (undecodable UnpackRpcErrorData (GetHealth p) = true) as Hu.
  { rewrite Hr. unfold undecodable. by rewrite Has, Hd, Hunpack. }
  pose proof (collectHealth_fatal p err err' rpcError payload
                Hr Has Hd Hunpack) as Hrun.
  split; [by rewrite Collect_outcome, Hu|].
  split.
  { rewrite (of_sub_Collect p HealthSub) by done. unfold run.
    by rewrite Hrun. }
  split.
  { rewrite Collect_eq, trace_pair, Hu. unfold run. rewrite Hrun.
    by rewrite trace_pair, app_nil_r. }
  rewrite Collect_queries, Hu. by rewrite app_nil_r.
Qed.

(** ** Sentinels and gauge samples never mix *)

Lemma sent_in_part (p : P) (m : Metric) :
  m ∈ sent (trace (Collect FetchBalances UnpackRpcErrorData (collector p))) →
  ∃ k, m ∈ part p k.
Proof.
  rewrite Collect_sent, !elem_of_app.
  intros [?|[?|[?|[?|Hrest]]]]; eauto.
  destruct (undecodable UnpackRpcErrorData (GetHealth p));
    [by apply elem_of_nil in Hrest|].
  apply elem_of_app in Hrest as [?|?]; eauto.
Qed.

(** Two metrics of one family in a scrape are both sentinels or both
    gauge samples. *)
Lemma same_family_same_kind (p : P) (m1 m2 : Metric) :
  let ms :=
    sent (trace (Collect FetchBalances UnpackRpcErrorData (collector p))) in
  m1 ∈ ms → m2 ∈ ms → family m1 = family m2 →
  is_invalid m1 = is_invalid m2.
Proof.
  intros ms H1 H2 Hfam.
  apply sent_in_part in H1 as [k1 H1]. apply sent_in_part in H2 as [k2 H2].
  pose proof (run_sent_own p k1) as Hown1.
  pose proof (run_sent_own p k2) as Hown2.
  rewrite Forall_forall in Hown1, Hown2.
  destruct (Hown1 _ H1) as [Hf1 Hk1]. destruct (Hown2 _ H2) as [Hf2 Hk2].
  destruct (decide (k1 = k2)) as [->|Hne]; [congruence|].
  exfalso. rewrite Hfam in Hf1. by apply (families_apart p k1 k2 (family m2)).
Qed.

Lemma never_mixed (p : P) (Q : Metric → Prop) `{!∀ m, Decision (Q m)} :
  (∀ m1 m2, Q m1 → Q m2 → family m1 = family m2) →
  let obs :=
    filter Q
      (sent (trace (Collect FetchBalances UnpackRpcErrorData (collector p))))
  in
  Forall (λ m, is_invalid m = false) obs
  ∨ Forall (λ m, is_invalid m = true) obs.
Proof.
  intros HQ obs.
  destruct obs as [|m0 obs'] eqn:Hobs; [left; constructor|].
  assert (∀ m, m ∈ obs → is_invalid m = is_invalid m0) as Hsame.
  { intros m Hm.
    assert (m0 ∈ obs) as Hm0 by (rewrite Hobs; by left).
    apply list_elem_of_filter in Hm as [HQm Hm].
    apply list_elem_of_filter in Hm0 as [HQm0 Hm0].
    apply (same_family_same_kind p); auto. }
  rewrite Hobs in Hsame.
  destruct (is_invalid m0); [right|left]; by apply Forall_forall.
Qed.

(** C9: in a scrape, the observations of a metric descriptor, and those
    of a metric family, are all gauge samples or all failure sentinels. *)
Theorem sentinel_never_alongside_samples (p : P) :
  let ms :=
    sent (trace (Collect FetchBalances UnpackRpcErrorData (collector p))) in
  (∀ d : GaugeDesc,
     Forall (λ m, is_invalid m = false) (filter (λ m, Desc m = d) ms)
     ∨ Forall (λ m, is_invalid m = true) (filter (λ m, Desc m = d) ms))
  ∧ (∀ n : string,
       Forall (λ m, is_invalid m = false) (of_family n ms)
       ∨ Forall (λ m, is_invalid m = true) (of_family n ms)).
Proof.
  intros ms. split.
  - intros d. apply (never_mixed p (λ m, Desc m = d)).
    intros m1 m2 H1 H2. unfold family. congruence.
  - intros n. apply (never_mixed p (λ m, family m = n)). congruence.
Qed.

(** ** Isolation of failures *)


(** ** The shape of every sub-collection *)

Lemma logs_app (t t' : list Event) : logs (t ++ t') = logs t ++ logs t'.
Proof.
  induction t as [|e t IH]; [done|].
  destruct e; simpl; by rewrite ?IH.
Qed.

Lemma logs_sends (ms : list Metric) : logs (EvSend <$> ms) = [].
Proof. by induction ms. Qed.

(** A gauge sample of sub-collection [k]: one of its descriptors, with the
    right number of label values. *)
Abbreviation sample p k :=
  (λ m : Metric,
     is_invalid m = false ∧ Desc m ∈ owned (collector p) k ∧ well_labelled m).

(** A sub-collection asks its query and then either logs the error and
    sends its sentinels, or sends samples of its own (the health one after
    an accepted unpacking, possibly), or is the health one ending the
    process. *)
Lemma run_shape (p : P) (k : SubCollection) :
  (∃ err,
     failure FetchBalances p (balanceAddresses (collector p)) k = Some err
     ∧ sub p k
       = (EvQuery (query_of (collector p) k)
            :: EvLog ErrorLevel (failure_format k) [ArgError err]
            :: (EvSend <$> sentinels (collector p) k err),
          Returned tt))
  ∨ (failure FetchBalances p (balanceAddresses (collector p)) k = None
     ∧ (k = HealthSub → undecodable UnpackRpcErrorData (GetHealth p) = false)
     ∧ ∃ pre ms,
         (pre = [] ∨ k = HealthSub ∧ ∃ r, pre = [EvUnpack r])
         ∧ Forall (sample p k) ms
         ∧ sub p k
           = (EvQuery (query_of (collector p) k) :: pre ++ (EvSend <$> ms),
              Returned tt))
  ∨ (k = HealthSub
     ∧ undecodable UnpackRpcErrorData (GetHealth p) = true
     ∧ ∃ r err',
         sub p k
         = ([EvQuery QGetHealth; EvUnpack r;
             EvLog FatalLevel "failed to unpack %s rpc error: %v"
               [ArgString (Method r); ArgError err']],
            Exited)).
Proof.
  destruct (failure FetchBalances p (balanceAddresses (collector p)) k)
    as [err|] eqn:Hf.
  { left. exists err. split; [done|].
    destruct k; unfold failure in Hf; unfold run, query_of, failure_format.
    - destruct (GetVoteAccounts p CommitmentConfirmed None) as [va|e] eqn:Hr;
        [done|]. injection Hf as ->. apply (collectVoteAccounts_err _ _ Hr).
    - destruct (GetVersion p) as [v|e] eqn:Hr; [done|]. injection Hf as ->.
      apply (collectVersion_err _ _ Hr).
    - destruct (FetchBalances p (balanceAddresses (collector p)))
        as [b|e] eqn:Hr; [done|]. injection Hf as ->.
      apply (collectBalances_err _ _ Hr).
    - apply (collectHealth_failure _ _ Hf).
    - destruct (GetMinimumLedgerSlot p) as [v|e] eqn:Hr; [done|].
      injection Hf as ->. apply (collectMinimumLedgerSlot_err _ _ Hr).
    - destruct (GetFirstAvailableBlock p) as [v|e] eqn:Hr; [done|].
      injection Hf as ->. apply (collectFirstAvailableBlock_err _ _ Hr). }
  right.
  destruct k; unfold failure in Hf; unfold run, query_of.
  - left. split; [done|]. split; [done|].
    destruct (GetVoteAccounts p CommitmentConfirmed None) as [va|e] eqn:Hr;
      [|done].
    exists [], (vote_accounts_obs (collector p) va).
    split; [by left|]. split; [|apply (collectVoteAccounts_ok _ _ Hr)].
    unfold vote_accounts_obs. rewrite !Forall_app. repeat split.
    + repeat constructor; names.
    + apply Forall_bind, Forall_forall. intros a _.
      repeat constructor; names.
    + apply Forall_fmap, Forall_forall. intros a _.
      repeat split; names.
    + apply Forall_fmap, Forall_forall. intros a _.
      repeat split; names.
  - left. split; [done|]. split; [done|].
    destruct (GetVersion p) as [v|e] eqn:Hr; [|done].
    exists [], [ConstMetric (NodeVersion (collector p)) (float64_of_int 1) [v]].
    split; [by left|]. split; [|apply (collectVersion_ok _ _ Hr)].
    repeat constructor; names.
  - left. split; [done|]. split; [done|].
    destruct (FetchBalances p (balanceAddresses (collector p)))
      as [b|e] eqn:Hr; [|done].
    exists [], (balance_obs (collector p) <$> b).
    split; [by left|]. split; [|apply (collectBalances_ok _ _ Hr)].
    apply Forall_fmap, Forall_forall. intros a _. repeat split; names.
  - destruct (failure_health_cases (GetHealth p))
      as [Hr|[(err & Hr & Hf')|(err & r & payload & Hr & Has & Hd & _)]].
    + left. split; [done|]. split; [by rewrite Hr|].
      exists [], (health_obs (collector p) 1 0).
      split; [by left|]. split; [|apply (collectHealth_healthy _ Hr)].
      repeat constructor; names.
    + congruence.
    + destruct (UnpackRpcErrorData r {| NumSlotsBehind := 0 |})
        as [err'|] eqn:Hu.
      * right. split; [done|].
        split; [unfold undecodable; by rewrite Hr, Has, Hd, Hu|].
        exists r, err'. apply (collectHealth_fatal _ _ _ _ _ Hr Has Hd Hu).
      * left. split; [done|].
        split; [unfold undecodable; by rewrite Hr, Has, Hd, Hu|].
        exists [EvUnpack r], (health_obs (collector p) 0 0).
        split; [right; eauto|].
        split; [|apply (collectHealth_unpacked _ _ _ _ Hr Has Hd Hu)].
        repeat constructor; names.
  - left. split; [done|]. split; [done|].
    destruct (GetMinimumLedgerSlot p) as [v|e] eqn:Hr; [|done].
    exists [], [ConstMetric (NodeMinimumLedgerSlot (collector p))
                  (float64_of_int v) [ident]].
    split; [by left|]. split; [|apply (collectMinimumLedgerSlot_ok _ _ Hr)].
    repeat constructor; names.
  - left. split; [done|]. split; [done|].
    destruct (GetFirstAvailableBlock p) as [v|e] eqn:Hr; [|done].
    exists [], [ConstMetric (NodeFirstAvailableBlock (collector p))
                  (float64_of_int v) [ident]].
    split; [by left|]. split; [|apply (collectFirstAvailableBlock_ok _ _ Hr)].
    repeat constructor; names.
Qed.

(** What a sub-collection sends is of its own descriptors and well
    labelled. *)
Lemma part_described (p : P) (k : SubCollection) :
  Forall (λ m, Desc m ∈ owned (collector p) k ∧ well_labelled m) (part p k).
Proof.
  destruct (run_shape p k)
    as [(err & _ & ->)|[(_ & _ & pre & ms & Hpre & Hms & ->)
                       |(_ & _ & r & err' & ->)]].
  - sent_simpl. unfold sentinels. apply Forall_fmap, Forall_forall.
    by intros d Hd.
  - assert (sent (pre ++ (EvSend <$> ms)) = ms) as Hsent.
    { rewrite sent_app, sent_sends.
      by destruct Hpre as [->|(_ & r & ->)]. }
    unfold trace; cbn [fst sent]. rewrite Hsent.
    eapply Forall_impl; [exact Hms|]. by intros m (_ & ? & ?).
  - constructor.
Qed.

Lemma owned_described (p : P) (k : SubCollection) :
  Forall (λ d, d ∈ Describe (collector p)) (owned (collector p) k).
Proof. destruct k; names. Qed.

(** ** Describe and the scrape *)

(** X1: every metric a scrape sends, sample or sentinel, is of a
    descriptor that [Describe] announces; [Describe] announces eleven
    descriptors, with eleven different family names. *)
Theorem scrape_within_Describe (p : P) :
  (∀ m,
     m ∈ sent (trace (Collect FetchBalances UnpackRpcErrorData (collector p)))
     → Desc m ∈ Describe (collector p))
  ∧ length (Describe (collector p)) = 11%nat
  ∧ NoDup (Name <$> Describe (collector p)).
Proof.
  split; [|split; [reflexivity|names]].
  intros m [k Hm]%sent_in_part.
  pose proof (part_described p k) as Hk. rewrite Forall_forall in Hk.
  destruct (Hk m Hm) as [Hd _].
  pose proof (owned_described p k) as Ho. rewrite Forall_forall in Ho.
  by apply Ho.
Qed.

(** X2: every gauge sample of a scrape carries exactly as many label
    values as its descriptor has label names, so that no scrape ends in the
    construction of a metric: a scrape exits exactly when the health payload
    cannot be unpacked. *)
Theorem samples_well_labelled (p : P) :
  Forall well_labelled
    (sent (trace (Collect FetchBalances UnpackRpcErrorData (collector p))))
  ∧ (outcome (Collect FetchBalances UnpackRpcErrorData (collector p)) = Exited
     ↔ undecodable UnpackRpcErrorData (GetHealth p) = true).
Proof.
  split.
  - apply Forall_forall. intros m [k Hm]%sent_in_part.
    pose proof (part_described p k) as Hk. rewrite Forall_forall in Hk.
    by destruct (Hk m Hm).
  - rewrite Collect_outcome.
    by destruct (undecodable UnpackRpcErrorData (GetHealth p)).
Qed.

(** ** The single-gauge sub-collections *)

Lemma of_family_part (p : P) (k : SubCollection) (n : string)
    (m : M unit) :
  n ∈ families (collector p) k →
  (after_health k = true →
   undecodable UnpackRpcErrorData (GetHealth p) = false) →
  sub p k = m →
  of_family n
    (sent (trace (Collect FetchBalances UnpackRpcErrorData (collector p))))
  = of_family n (sent (trace m)).
Proof. intros Hn Hk <-. by apply of_family_Collect. Qed.

(** X3: the node_version family of a scrape is the single sample of value
    1 labelled with the version the node reports, or the single sentinel
    carrying the error of the version query. *)
Theorem version_observation (p : P) :
  let ms :=
    sent (trace (Collect FetchBalances UnpackRpcErrorData (collector p))) in
  (∀ version,
     GetVersion p = Ok version →
     of_family "solana_node_version" ms
     = [ConstMetric (NodeVersion (collector p)) 1%Q [version]])
  ∧ (∀ err,
       GetVersion p = Err err →
       of_family "solana_node_version" ms
       = [InvalidMetric (NodeVersion (collector p)) err]).
Proof.
  intros ms. unfold ms. split.
  - intros v Hr.
    rewrite (of_family_part p VersionSub "solana_node_version" _
                 ltac:(names) ltac:(done)
               (collectVersion_ok _ _ Hr)).
    sent_simpl. pick_family.
  - intros err Hr.
    rewrite (of_family_part p VersionSub "solana_node_version" _
                 ltac:(names) ltac:(done)
               (collectVersion_err _ _ Hr)).
    sent_simpl. unfold sentinels, owned, NewInvalidMetric.
    cbn [fmap list_fmap]. pick_family.
Qed.

Lemma of_sub_after_exit (p : P) (k : SubCollection) :
  undecodable UnpackRpcErrorData (GetHealth p) = true →
  after_health k = true →
  of_sub (collector p) k
    (sent (trace (Collect FetchBalances UnpackRpcErrorData (collector p))))
  = [].
Proof.
  intros Hu Hk. rewrite Collect_sent, Hu, !of_sub_app.
  destruct k; try discriminate Hk; by rewrite !of_sub_other.
Qed.

Lemma of_family_after_exit (p : P) (k : SubCollection) (n : string) :
  undecodable UnpackRpcErrorData (GetHealth p) = true →
  after_health k = true →
  n ∈ families (collector p) k →
  of_family n
    (sent (trace (Collect FetchBalances UnpackRpcErrorData (collector p))))
  = [].
Proof.
  intros Hu Hk Hn. rewrite <- (of_family_of_sub (collector p) k n) by done.
  by rewrite of_sub_after_exit.
Qed.

(** X4: in a scrape that does not exit in the health sub-collection, the
    node_minimum_ledger_slot family is the single sample whose value is the
    float64 of the slot the node reports, labelled with the identity, or the
    single sentinel of the query's error, and likewise
    node_first_available_block with the block; in a scrape that exits there,
    both families are empty. *)
Theorem ledger_bounds_observations (p : P) :
  let ms :=
    sent (trace (Collect FetchBalances UnpackRpcErrorData (collector p))) in
  (undecodable UnpackRpcErrorData (GetHealth p) = false →
   (∀ slot,
      GetMinimumLedgerSlot p = Ok slot →
      of_family "solana_node_minimum_ledger_slot" ms
      = [ConstMetric (NodeMinimumLedgerSlot (collector p))
           (float64_of_int slot) [ident]])
   ∧ (∀ err,
        GetMinimumLedgerSlot p = Err err →
        of_family "solana_node_minimum_ledger_slot" ms
        = [InvalidMetric (NodeMinimumLedgerSlot (collector p)) err])
   ∧ (∀ block,
        GetFirstAvailableBlock p = Ok block →
        of_family "solana_node_first_available_block" ms
        = [ConstMetric (NodeFirstAvailableBlock (collector p))
             (float64_of_int block) [ident]])
   ∧ (∀ err,
        GetFirstAvailableBlock p = Err err →
        of_family "solana_node_first_available_block" ms
        = [InvalidMetric (NodeFirstAvailableBlock (collector p)) err]))
  ∧ (undecodable UnpackRpcErrorData (GetHealth p) = true →
     of_family "solana_node_minimum_ledger_slot" ms = []
     ∧ of_family "solana_node_first_available_block" ms = []).
Proof.
  intros ms. unfold ms. split.
  - intros Hu. repeat split.
    + intros v Hr.
      rewrite (of_family_part p MinimumLedgerSlotSub "solana_node_minimum_ledger_slot" _
                 ltac:(names)
                 ltac:(done) (collectMinimumLedgerSlot_ok _ _ Hr)).
      sent_simpl. pick_family.
    + intros err Hr.
      rewrite (of_family_part p MinimumLedgerSlotSub "solana_node_minimum_ledger_slot" _
                 ltac:(names)
                 ltac:(done) (collectMinimumLedgerSlot_err _ _ Hr)).
      sent_simpl. unfold sentinels, owned, NewInvalidMetric.
      cbn [fmap list_fmap]. pick_family.
    + intros v Hr.
      rewrite (of_family_part p FirstAvailableBlockSub "solana_node_first_available_block" _
                 ltac:(names)
                 ltac:(done) (collectFirstAvailableBlock_ok _ _ Hr)).
      sent_simpl. pick_family.
    + intros err Hr.
      rewrite (of_family_part p FirstAvailableBlockSub "solana_node_first_available_block" _
                 ltac:(names)
                 ltac:(done) (collectFirstAvailableBlock_err _ _ Hr)).
      sent_simpl. unfold sentinels, owned, NewInvalidMetric.
      cbn [fmap list_fmap]. pick_family.
  - intros Hu. split.
    + apply (of_family_after_exit p MinimumLedgerSlotSub); [done..|names].
    + apply (of_family_after_exit p FirstAvailableBlockSub); [done..|names].
Qed.

(** X5: the balances query of a scrape is made for the address list the
    collector was built with; when it succeeds, the account_balance family
    has one sample per entry of the returned map, in the order the map is
    visited, with the balance as value and the address as label, and when it
    fails the family is the single sentinel of the error. *)
Theorem balances_observations (p : P) :
  let ms :=
    sent (trace (Collect FetchBalances UnpackRpcErrorData (collector p))) in
  (∀ balances,
     FetchBalances p (CombineUnique [addresses; nodekeys; votekeys])
     = Ok balances →
     of_family "solana_account_balance" ms
     = (λ ab, ConstMetric (AccountBalances (collector p)) ab.2 [ab.1])
         <$> balances
     ∧ length (of_family "solana_account_balance" ms) = length balances)
  ∧ (∀ err,
       FetchBalances p (CombineUnique [addresses; nodekeys; votekeys])
       = Err err →
       of_family "solana_account_balance" ms
       = [InvalidMetric (AccountBalances (collector p)) err])
  ∧ QFetchBalances (CombineUnique [addresses; nodekeys; votekeys])
    ∈ queries (trace (Collect FetchBalances UnpackRpcErrorData (collector p))).
Proof.
  intros ms. unfold ms. split; [|split].
  - intros b Hr.
    rewrite (of_family_part p BalancesSub "solana_account_balance" _
                 ltac:(names) ltac:(done)
               (collectBalances_ok p b Hr)).
    sent_simpl. rewrite of_family_fmap_all by (intros a; names).
    split; [done|]. by rewrite length_fmap.
  - intros err Hr.
    rewrite (of_family_part p BalancesSub "solana_account_balance" _
                 ltac:(names) ltac:(done)
               (collectBalances_err p err Hr)).
    sent_simpl. unfold sentinels, owned, NewInvalidMetric.
    cbn [fmap list_fmap]. pick_family.
  - rewrite Collect_queries. apply elem_of_app. left.
    cbn [fmap list_fmap query_of]. do 2 right. by left.
Qed.

(** ** The log of a scrape *)

Lemma run_logs (p : P) (k : SubCollection) :
  (k = HealthSub → undecodable UnpackRpcErrorData (GetHealth p) = false) →
  logs (trace (sub p k))
  = match failure FetchBalances p (balanceAddresses (collector p)) k with
    | Some err => [failure_line k err]
    | None => []
    end.
Proof.
  intros Hk.
  destruct (run_shape p k)
    as [(err & -> & ->)|[(-> & _ & pre & ms & Hpre & _ & ->)
                        |(-> & Hu & _)]].
  - unfold trace; cbn [fst logs]. by rewrite logs_sends.
  - unfold trace; cbn [fst logs]. rewrite logs_app, logs_sends.
    by destruct Hpre as [->|(_ & r & ->)].
  - rewrite Hk in Hu; done.
Qed.

(** X6: a scrape that does not exit writes one error line for each
    sub-collection that fails, with that sub-collection's format and the
    error as argument, in the order of the sub-collections, and nothing
    else; a scrape that exits writes the lines of the failures among the
    first three sub-collections and then the fatal line, last. *)
Theorem scrape_log (p : P) :
  let t := trace (Collect FetchBalances UnpackRpcErrorData (collector p)) in
  let line k :=
    failure_line k
      <$> failure FetchBalances p (balanceAddresses (collector p)) k in
  (undecodable UnpackRpcErrorData (GetHealth p) = false →
   logs t = omap line sub_collections)
  ∧ (undecodable UnpackRpcErrorData (GetHealth p) = true →
     ∃ rpcError err',
       logs t
       = omap line [VoteAccountsSub; VersionSub; BalancesSub]
         ++ [(FatalLevel, "failed to unpack %s rpc error: %v",
              [ArgString (Method rpcError); ArgError err'])]).
Proof.
  intros t line. unfold t, line. rewrite Collect_eq, trace_pair. split.
  - intros Hu. rewrite Hu, !logs_app, !run_logs by done.
    unfold sub_collections. cbn [omap list_omap].
    repeat match goal with
           | |- context [failure ?f ?q ?a ?k] => destruct (failure f q a k)
           end; reflexivity.
  - intros Hu. rewrite Hu, app_nil_r, !logs_app, !run_logs by done.
    destruct (run_shape p HealthSub)
      as [(err & Hf & _)|[(_ & Hu' & _)|(_ & _ & r & err' & ->)]].
    + exfalso. unfold failure in Hf. revert Hu Hf.
      unfold undecodable, health_failure.
      destruct (GetHealth p) as [e|]; [|done].
      destruct (errors_As e) as [r|]; [|done]. by destruct (Data r).
    + rewrite Hu' in Hu; done.
    + exists r, err'. cbn [omap list_omap].
      repeat match goal with
             | |- context [failure ?f ?q ?a ?k] => destruct (failure f q a k)
             end; reflexivity.
Qed.

(** ** The health sub-collection on a node that answers *)

(** X7: when the health query succeeds, the scrape reports
    node_is_healthy = 1 and node_num_slots_behind = 0, each as the single
    sample of its family and labelled with the identity; the health
    sub-collection then decodes no payload and logs nothing. *)
Theorem healthy_node_observations (p : P) :
  GetHealth p = None →
  let ms :=
    sent (trace (Collect FetchBalances UnpackRpcErrorData (collector p))) in
  of_family "solana_node_is_healthy" ms
  = [ConstMetric (NodeIsHealthy (collector p)) 1%Q [ident]]
  ∧ of_family "solana_node_num_slots_behind" ms
    = [ConstMetric (NodeNumSlotsBehind (collector p)) 0%Q [ident]]
  ∧ unpacks (trace (collectHealth UnpackRpcErrorData (collector p))) = []
  ∧ logs (trace (collectHealth UnpackRpcErrorData (collector p))) = [].
Proof.
  intros Hr ms. unfold ms.
  pose proof (collectHealth_healthy p Hr) as Hrun.
  rewrite !(of_family_Collect p HealthSub) by (done || names).
  unfold run. rewrite Hrun. sent_simpl. unfold health_obs.
  split; [pick_family|]. split; [pick_family|]. split; reflexivity.
Qed.

(** X8: when the health query fails with an RPC error whose payload
    [UnpackRpcErrorData] accepts, the scrape goes on to its end and reports
    node_is_healthy = 0 as the single sample of the family, labelled with the
    identity; the health sub-collection decodes that one payload and logs
    nothing. *)
Theorem unhealthy_node_reported (p : P) (err : GoError) (rpcError : RPCError)
    (payload : Payload) :
  GetHealth p = Some err →
  errors_As err = Some rpcError →
  Data rpcError = Some payload →
  UnpackRpcErrorData rpcError {| NumSlotsBehind := 0 |} = None →
  let m := Collect FetchBalances UnpackRpcErrorData (collector p) in
  outcome m = Returned tt
  ∧ of_family "solana_node_is_healthy" (sent (trace m))
    = [ConstMetric (NodeIsHealthy (collector p)) 0%Q [ident]]
  ∧ unpacks (trace (collectHealth UnpackRpcErrorData (collector p)))
    = [rpcError]
  ∧ logs (trace (collectHealth UnpackRpcErrorData (collector p))) = [].
Proof.
  intros Hr Has Hd Hunpack m. unfold m.
  assert (undecodable UnpackRpcErrorData (GetHealth p) = false) as Hu.
  { rewrite Hr. unfold undecodable. by rewrite Has, Hd, Hunpack. }
  pose proof (collectHealth_unpacked p err rpcError payload Hr Has Hd Hunpack)
    as Hrun.
  split; [by rewrite Collect_outcome, Hu|].
  rewrite (of_family_Collect p HealthSub) by (done || names).
  unfold run. rewrite Hrun. sent_simpl. unfold health_obs.
  split; [pick_family|]. split; reflexivity.
Qed.

(** ** The scrape against a node that answers nothing *)

Lemma Desc_sentinels (c : SolanaCollector P) (k : SubCollection)
    (err : GoError) :
  Desc <$> sentinels c k err = owned c k.
Proof.
  unfold sentinels. rewrite <- list_fmap_compose.
  induction (owned c k) as [|d l IH]; [done|].
  rewrite fmap_cons. by f_equal.
Qed.

(** X9: when every sub-collection fails, the scrape returns and sends
    sentinels only: eleven of them, one for each descriptor that [Describe]
    announces. *)
Theorem all_queries_fail (p : P) :
  (∀ k, failure FetchBalances p (balanceAddresses (collector p)) k ≠ None) →
  let m := Collect FetchBalances UnpackRpcErrorData (collector p) in
  outcome m = Returned tt
  ∧ Forall (λ x, is_invalid x = true) (sent (trace m))
  ∧ length (sent (trace m)) = 11%nat
  ∧ Desc <$> sent (trace m) ≡ₚ Describe (collector p).
Proof.
  intros Hall m. unfold m.
  assert (undecodable UnpackRpcErrorData (GetHealth p) = false) as Hu.
  { pose proof (Hall HealthSub) as Hh. unfold failure in Hh.
    revert Hh. unfold undecodable, health_failure.
    destruct (GetHealth p) as [e|]; [|done].
    destruct (errors_As e) as [r|]; [|done]. by destruct (Data r). }
  assert (∀ k, ∃ err, part p k = sentinels (collector p) k err) as Hparts.
  { intros k. pose proof (Hall k) as Hk.
    destruct (failure FetchBalances p (balanceAddresses (collector p)) k)
      as [err|] eqn:Hf; [|done].
    exists err. by apply run_sent_failure. }
  split; [by rewrite Collect_outcome, Hu|].
  rewrite Collect_sent, Hu.
  destruct (Hparts VoteAccountsSub) as [e1 ->].
  destruct (Hparts VersionSub) as [e2 ->].
  destruct (Hparts BalancesSub) as [e3 ->].
  destruct (Hparts HealthSub) as [e4 ->].
  destruct (Hparts MinimumLedgerSlotSub) as [e5 ->].
  destruct (Hparts FirstAvailableBlockSub) as [e6 ->].
  split; [repeat constructor|]. split; [reflexivity|].
  rewrite !fmap_app, !Desc_sentinels.
  apply NoDup_Permutation; [names|names|].
  intros d. unfold owned, Describe. set_unfold. tauto.
Qed.

(** ** The scrape against a node that answers everything *)

Lemma length_per_validator (c : SolanaCollector P) (xs : list VoteAccount) :
  length (xs ≫= per_validator_obs c) = (3 * length xs)%nat.
Proof.
  induction xs as [|x xs IH]; [done|].
  change ((x :: xs) ≫= per_validator_obs c)
    with (per_validator_obs c x ++ (xs ≫= per_validator_obs c)).
  rewrite length_app, IH. simpl. lia.
Qed.

(** X13: when all six queries succeed, the scrape sends gauge samples
    only, seven plus four for every validator record of the two partitions
    plus one for every entry of the balances map. *)
Theorem all_queries_succeed (p : P) (va : VoteAccounts) (version : string)
    (balances : list (string * float64)) (slot block : Z) :
  GetVoteAccounts p CommitmentConfirmed None = Ok va →
  GetVersion p = Ok version →
  FetchBalances p (balanceAddresses (collector p)) = Ok balances →
  GetHealth p = None →
  GetMinimumLedgerSlot p = Ok slot →
  GetFirstAvailableBlock p = Ok block →
  let m := Collect FetchBalances UnpackRpcErrorData (collector p) in
  outcome m = Returned tt
  ∧ Forall (λ x, is_invalid x = false) (sent (trace m))
  ∧ length (sent (trace m))
    = (7 + 4 * (length (Current va) + length (Delinquent va))
       + length balances)%nat.
Proof.
  intros Hva Hver Hbal Hh Hmin Hfirst m. unfold m.
  assert (undecodable UnpackRpcErrorData (GetHealth p) = false) as Hu
    by (by rewrite Hh).
  split; [by rewrite Collect_outcome, Hu|].
  rewrite Collect_sent, Hu. unfold run.
  rewrite (collectVoteAccounts_ok _ _ Hva), (collectVersion_ok _ _ Hver),
    (collectBalances_ok _ _ Hbal), (collectHealth_healthy _ Hh),
    (collectMinimumLedgerSlot_ok _ _ Hmin),
    (collectFirstAvailableBlock_ok _ _ Hfirst).
  sent_simpl. split.
  - rewrite !Forall_app. unfold vote_accounts_obs. rewrite !Forall_app.
    repeat split; try (repeat constructor; done).
    + apply Forall_bind, Forall_forall. intros a _. by repeat constructor.
    + by apply Forall_fmap, Forall_forall.
    + by apply Forall_fmap, Forall_forall.
    + by apply Forall_fmap, Forall_forall.
  - unfold vote_accounts_obs.
    rewrite !length_app, !length_fmap, length_per_validator, length_app.
    simpl. lia.
Qed.

End Scrape.

(** ** Process start *)

Section Start.

Context {P : Type} `{Provider P}.
Variable FetchBalances : P → list string → Result (list (string * float64)).
Variable UnpackRpcErrorData :
  RPCError → NodeUnhealthyErrorData → option GoError.
Variable fromCLI : Main.ExporterConfig.
Variable newRPCClient : string → Z → P.
Variable getAssociatedVoteAccounts :
  P → Commitment → list string → Result (list string).
Variable getIdentity : P → Result string.
Variable slotPacerSchedule : Z.
Variable listenAndServe : string → option GoError.

Abbreviation the_main :=
  (Main.main fromCLI newRPCClient getAssociatedVoteAccounts getIdentity
     slotPacerSchedule listenAndServe).
Abbreviation the_client :=
  (newRPCClient (Main.RpcUrl fromCLI) (Main.HttpTimeout fromCLI)).

(** X10: when the lookup of the associated vote accounts fails, or the
    identity query fails after it, [main] exits with a fatal line carrying
    that error as its last step, and has neither created nor started the
    slot watcher, registered a collector, installed the metrics handler nor
    listened. *)
Theorem main_fails_fast (err : GoError) :
  getAssociatedVoteAccounts the_client CommitmentFinalized
    (Main.NodeKeys fromCLI) = Err err
  ∨ (∃ votekeys,
       getAssociatedVoteAccounts the_client CommitmentFinalized
         (Main.NodeKeys fromCLI) = Ok votekeys
       ∧ getIdentity the_client = Err err) →
  the_main.2 = Main.Exits
  ∧ Forall (λ s, Main.goes_live s = false) the_main.1
  ∧ Main.registered the_main.1 = []
  ∧ ∃ format args,
      last the_main.1 = Some (Main.Logf Main.FatalLevel format args)
      ∧ Main.ArgError err ∈ args.
Proof.
  intros [Hv|(votekeys & Hv & Hi)]; unfold Main.main; rewrite Hv, ?Hi;
    cbn [fst snd]; (split; [done|]);
    destruct (Main.ComprehensiveSlotTracking fromCLI); cbn [app].
  - split; [repeat constructor|]. split; [done|].
    eexists _, _. split; [reflexivity|]. right; left.
  - split; [repeat constructor|]. split; [done|].
    eexists _, _. split; [reflexivity|]. right; left.
  - split; [repeat constructor|]. split; [done|].
    eexists _, _. split; [reflexivity|]. left.
  - split; [repeat constructor|]. split; [done|].
    eexists _, _. split; [reflexivity|]. left.
Qed.

(** X11: when both start-up queries succeed, [main] creates the slot
    watcher, starts it at the pace of the collector, registers the one
    collector built from the client, the pace constant, the configured
    balance addresses and node keys, the vote keys found and the identity,
    installs the handler and listens on the configured address, in this
    order; it keeps serving exactly as long as the server does not return,
    and exits when it does. *)
Theorem main_goes_live (votekeys : list string) (identity : string) :
  getAssociatedVoteAccounts the_client CommitmentFinalized
    (Main.NodeKeys fromCLI) = Ok votekeys →
  getIdentity the_client = Ok identity →
  let collector :=
    NewSolanaCollector the_client slotPacerSchedule
      (Main.BalanceAddresses fromCLI) (Main.NodeKeys fromCLI) votekeys
      identity in
  filter (λ s, Main.goes_live s = true) the_main.1
  = [Main.NewSlotWatcher the_client (Main.NodeKeys fromCLI) votekeys identity
       (Main.ComprehensiveSlotTracking fromCLI)
       (Main.MonitorBlockSizes fromCLI);
     Main.GoWatchSlots slotPacerSchedule;
     Main.MustRegister collector;
     Main.Handle "/metrics";
     Main.ListenAndServe (Main.ListenAddress fromCLI)]
  ∧ Main.registered the_main.1 = [collector]
  ∧ (the_main.2 = Main.Serves
     ↔ listenAndServe (Main.ListenAddress fromCLI) = None)
  ∧ (the_main.2 = Main.Exits
     ↔ listenAndServe (Main.ListenAddress fromCLI) ≠ None).
Proof.
  intros Hv Hi collector. unfold Main.main. rewrite Hv, Hi.
  destruct (listenAndServe (Main.ListenAddress fromCLI)) as [err|];
    destruct (Main.ComprehensiveSlotTracking fromCLI);
    cbn [fst snd app]; repeat split; try done.
Qed.

(** X12: a collector that [main] registers carries the identity the node
    gave at start-up and queries the client [main] created; each of its
    scrapes sends only metrics of the descriptors its [Describe] announces,
    whose family names differ, with samples that have the label values their
    descriptor asks for. *)
Theorem registered_collector_scrapes (c : SolanaCollector P) :
  c ∈ Main.registered the_main.1 →
  getIdentity the_client = Ok (identity c)
  ∧ rpcClient c = the_client
  ∧ NoDup (Name <$> Describe c)
  ∧ ∀ m, m ∈ sent (trace (Collect FetchBalances UnpackRpcErrorData c)) →
         Desc m ∈ Describe c ∧ well_labelled m.
Proof.
  unfold Main.main.
  destruct (getAssociatedVoteAccounts the_client CommitmentFinalized
              (Main.NodeKeys fromCLI)) as [votekeys|err] eqn:Hv.
  2:{ destruct (Main.ComprehensiveSlotTracking fromCLI); cbn [fst app];
        by intros ?%elem_of_nil. }
  destruct (getIdentity the_client) as [ident|err] eqn:Hi.
  2:{ destruct (Main.ComprehensiveSlotTracking fromCLI); cbn [fst app];
        by intros ?%elem_of_nil. }
  assert (c ∈ [NewSolanaCollector the_client slotPacerSchedule
                 (Main.BalanceAddresses fromCLI) (Main.NodeKeys fromCLI)
                 votekeys ident]
          → getIdentity the_client = Ok (identity c)
            ∧ rpcClient c = the_client
            ∧ NoDup (Name <$> Describe c)
            ∧ ∀ m, m ∈ sent (trace (Collect FetchBalances
                                      UnpackRpcErrorData c)) →
                   Desc m ∈ Describe c ∧ well_labelled m) as Hone.
  { intros ->%list_elem_of_singleton. split; [done|]. split; [done|].
    destruct (scrape_within_Describe FetchBalances UnpackRpcErrorData
                slotPacerSchedule (Main.BalanceAddresses fromCLI)
                (Main.NodeKeys fromCLI) votekeys ident the_client)
      as (Hdesc & _ & Hnd).
    destruct (samples_well_labelled FetchBalances UnpackRpcErrorData
                slotPacerSchedule (Main.BalanceAddresses fromCLI)
                (Main.NodeKeys fromCLI) votekeys ident the_client)
      as (Hwell & _).
    rewrite Forall_forall in Hwell. split; [done|]. intros m Hm. split; auto. }
  destruct (listenAndServe (Main.ListenAddress fromCLI));
    destruct (Main.ComprehensiveSlotTracking fromCLI);
    intros Hc; rewrite Hi in Hone; apply Hone; exact Hc.
Qed.

End Start.

(** ** Scrapes that were run *)

(** The scenario of a single current validator. *)
Example scrape_of_healthy_node :
  sent (trace (example_scrape healthy_node))
  = let c := example_collector healthy_node in
    [ConstMetric (ValidatorActive c) 0%Q ["delinquent"];
     ConstMetric (ValidatorActive c) 1%Q ["current"];
     ConstMetric (ValidatorActiveStake c) 100%Q ["V1"; "N1"];
     ConstMetric (ValidatorLastVote c) 50%Q ["V1"; "N1"];
     ConstMetric (ValidatorRootSlot c) 40%Q ["V1"; "N1"];
     ConstMetric (ValidatorDelinquent c) 0%Q ["V1"; "N1"];
     ConstMetric (NodeVersion c) 1%Q ["1.18.0"];
     ConstMetric (AccountBalances c) (5 # 2)%Q ["A"];
     ConstMetric (NodeIsHealthy c) 1%Q ["id"];
     ConstMetric (NodeNumSlotsBehind c) 0%Q ["id"];
     ConstMetric (NodeMinimumLedgerSlot c) 7%Q ["id"];
     ConstMetric (NodeFirstAvailableBlock c) 3%Q ["id"]].
Proof. reflexivity. Qed.

Example round_binary64_ties_to_even :
  round_binary64 (2 ^ 53 + 1) = 2 ^ 53
  ∧ round_binary64 (2 ^ 53 + 3) = 2 ^ 53 + 4
  ∧ round_binary64 (2 ^ 63 - 1) = 2 ^ 63
  ∧ round_binary64 (- (2 ^ 53 + 3)) = - (2 ^ 53 + 4).
Proof. by vm_compute. Qed.

(** ** C6, C7, C10 on concrete scrapes *)

Lemma validator_active_counts_witness :
  GetVoteAccounts healthy_node CommitmentConfirmed None = Ok one_current
  ∧ len (Current one_current) ≤ 2 ^ 53
  ∧ len (Delinquent one_current) ≤ 2 ^ 53
  ∧ of_family "solana_validator_active"
      (sent (trace (example_scrape healthy_node)))
    = [ConstMetric (ValidatorActive (example_collector healthy_node))
         0%Q ["delinquent"];
       ConstMetric (ValidatorActive (example_collector healthy_node))
         1%Q ["current"]]
  ∧ (sum_of_values
       (of_family "solana_validator_active"
          (sent (trace (example_scrape healthy_node)))) == 1)%Q.
Proof.
  assert (len (Current one_current) ≤ 2 ^ 53) as Hc by (by vm_compute).
  assert (len (Delinquent one_current) ≤ 2 ^ 53) as Hd by (by vm_compute).
  assert (GetVoteAccounts healthy_node CommitmentConfirmed None = Ok one_current)
    as Hr by reflexivity.
  destruct (validator_active_counts static_FetchBalances
              UnpackRpcErrorData_decode 0 ["A"] [] [] "id" healthy_node
              one_current Hr) as (Hobs & Hlen & Hval).
  destruct (Hval Hc Hd) as [Hvalues Hsum].
  exact (conj Hr (conj Hc (conj Hd (conj Hobs Hsum)))).
Defined.


Lemma shared_record_observed_twice_witness :
  GetVoteAccounts shared_record_node CommitmentConfirmed None
  = Ok current_and_delinquent
  ∧ V1 ∈ Current current_and_delinquent
  ∧ V1 ∈ Delinquent current_and_delinquent
  ∧ NoDup (keys <$> Current current_and_delinquent)
  ∧ NoDup (keys <$> Delinquent current_and_delinquent)
  ∧ length (of_family "solana_validator_delinquent"
              (sent (trace (example_scrape shared_record_node)))) = 2%nat
  ∧ with_labels ["V1"; "N1"]
      (of_family "solana_validator_delinquent"
         (sent (trace (example_scrape shared_record_node))))
    = [ConstMetric (ValidatorDelinquent (example_collector shared_record_node))
         0%Q ["V1"; "N1"];
       ConstMetric (ValidatorDelinquent (example_collector shared_record_node))
         1%Q ["V1"; "N1"]].
Proof.
  assert (GetVoteAccounts shared_record_node CommitmentConfirmed None
          = Ok current_and_delinquent) as Hr by reflexivity.
  assert (V1 ∈ Current current_and_delinquent) as Hc
    by (apply (bool_decide_unpack _); vm_compute; exact I).
  assert (V1 ∈ Delinquent current_and_delinquent) as Hd
    by (apply (bool_decide_unpack _); vm_compute; exact I).
  assert (NoDup (keys <$> Current current_and_delinquent)) as Hndc
    by (apply (bool_decide_unpack _); vm_compute; exact I).
  assert (NoDup (keys <$> Delinquent current_and_delinquent)) as Hndd
    by (apply (bool_decide_unpack _); vm_compute; exact I).
  destruct (shared_record_observed_twice static_FetchBalances
              UnpackRpcErrorData_decode 0 ["A"] [] [] "id" shared_record_node
              current_and_delinquent Hr) as (_ & _ & _ & Hlen & Htwice).
  destruct (Htwice V1 Hc Hd) as (_ & _ & _ & _ & Hobs).
  exact (conj Hr (conj Hc (conj Hd (conj Hndc (conj Hndd
           (conj Hlen (Hobs Hndc Hndd))))))).
Defined.

(** ** C3, C4, C5 on concrete scrapes *)

Lemma vote_accounts_failure_contained_witness :
  GetVoteAccounts votes_down_node CommitmentConfirmed None = Err connection_refused
  ∧ GetVoteAccounts healthy_node CommitmentConfirmed None = Ok one_current
  ∧ (∀ j, j ≠ VoteAccountsSub →
       same_response static_FetchBalances
         (balanceAddresses (example_collector votes_down_node)) j
         votes_down_node healthy_node)
  ∧ of_sub (example_collector votes_down_node) VoteAccountsSub
      (sent (trace (example_scrape votes_down_node)))
    = sentinels (example_collector votes_down_node) VoteAccountsSub
        connection_refused
  ∧ of_family "solana_validator_active"
      (sent (trace (example_scrape votes_down_node)))
    = [InvalidMetric (ValidatorActive (example_collector votes_down_node))
         connection_refused]
  ∧ not_of_sub (example_collector votes_down_node) VoteAccountsSub
      (sent (trace (example_scrape votes_down_node)))
    = not_of_sub (example_collector votes_down_node) VoteAccountsSub
        (sent (trace (example_scrape healthy_node))).
Proof.
  assert (GetVoteAccounts votes_down_node CommitmentConfirmed None
          = Err connection_refused) as Hr by reflexivity.
  assert (GetVoteAccounts healthy_node CommitmentConfirmed None = Ok one_current)
    as Hr' by reflexivity.
  assert (∀ j, j ≠ VoteAccountsSub →
            same_response static_FetchBalances
              (balanceAddresses (example_collector votes_down_node)) j
              votes_down_node healthy_node) as Hsame
    by (intros j Hj; destruct j; [by destruct Hj|reflexivity..]).
  destruct (vote_accounts_failure_contained static_FetchBalances
              UnpackRpcErrorData_decode 0 ["A"] [] [] "id" votes_down_node
              connection_refused Hr) as (Hactive & _ & _ & _ & _ & Hown & Hrest).
  exact (conj Hr (conj Hr' (conj Hsame (conj Hown (conj Hactive
           (Hrest healthy_node one_current Hr' Hsame)))))).
Defined.

Lemma health_error_gives_sentinels_witness :
  GetHealth unreachable_node = Some connection_refused
  ∧ errors_As connection_refused = None
  ∧ sent (trace (collectHealth UnpackRpcErrorData_decode
                   (example_collector unreachable_node)))
    = [InvalidMetric (NodeIsHealthy (example_collector unreachable_node))
         connection_refused;
       InvalidMetric (NodeNumSlotsBehind (example_collector unreachable_node))
         connection_refused]
  ∧ unpacks (trace (collectHealth UnpackRpcErrorData_decode
                      (example_collector unreachable_node))) = []
  ∧ of_family "solana_node_is_healthy"
      (sent (trace (example_scrape unreachable_node)))
    = [InvalidMetric (NodeIsHealthy (example_collector unreachable_node))
         connection_refused]
  ∧ of_family "solana_node_num_slots_behind"
      (sent (trace (example_scrape unreachable_node)))
    = [InvalidMetric (NodeNumSlotsBehind (example_collector unreachable_node))
         connection_refused].
Proof.
  assert (GetHealth unreachable_node = Some connection_refused) as Hr
    by reflexivity.
  assert (errors_As connection_refused = None) as Has by reflexivity.
  destruct (health_error_gives_sentinels static_FetchBalances
              UnpackRpcErrorData_decode 0 ["A"] [] [] "id" unreachable_node
              connection_refused Hr (or_introl Has))
    as (Hrun & Hunpacks & Hhealthy & Hbehind).
  refine (conj Hr (conj Has (conj _ (conj Hunpacks (conj Hhealthy Hbehind))))).
  exact (f_equal (λ m, sent (trace m)) Hrun).
Defined.

Lemma undecodable_payload_is_fatal_witness :
  GetHealth drifted_node = Some (node_unhealthy (Some other_shape))
  ∧ errors_As (node_unhealthy (Some other_shape))
    = Some {| Method := "getHealth"; Data := Some other_shape |}
  ∧ UnpackRpcErrorData_decode
      {| Method := "getHealth"; Data := Some other_shape |}
      {| NumSlotsBehind := 0 |}
    = Some (PlainError "failed to unmarshal getHealth rpc-error data")
  ∧ outcome (example_scrape drifted_node) = Exited
  ∧ of_sub (example_collector drifted_node) HealthSub
      (sent (trace (example_scrape drifted_node))) = []
  ∧ queries (trace (example_scrape drifted_node))
    = [QGetVoteAccounts CommitmentConfirmed None; QGetVersion;
       QFetchBalances ["A"]; QGetHealth].
Proof.
  assert (GetHealth drifted_node = Some (node_unhealthy (Some other_shape)))
    as Hr by reflexivity.
  assert (errors_As (node_unhealthy (Some other_shape))
          = Some {| Method := "getHealth"; Data := Some other_shape |})
    as Has by reflexivity.
  assert (UnpackRpcErrorData_decode
            {| Method := "getHealth"; Data := Some other_shape |}
            {| NumSlotsBehind := 0 |}
          = Some (PlainError "failed to unmarshal getHealth rpc-error data"))
    as Hu by reflexivity.
  destruct (undecodable_payload_is_fatal static_FetchBalances
              UnpackRpcErrorData_decode 0 ["A"] [] [] "id" drifted_node
              _ _ _ other_shape Hr Has eq_refl Hu)
    as (Hout & Hnone & _ & Hq).
  exact (conj Hr (conj Has (conj Hu (conj Hout (conj Hnone Hq))))).
Defined.

(** ** C1: the scrape that the health sub-collection ends *)



(** ** C2: the slots the node is behind *)

(** C2 at a node that is seven slots behind: the payload decodes to
    [{numSlotsBehind: 7}], yet whatever [UnpackRpcErrorData] does the health
    sub-collection either ends the process without an observation or
    reports node_num_slots_behind = 0, never 7; with the decoder of the spec
    it reports (node_is_healthy = 0, node_num_slots_behind = 0).  Against a
    healthy node it reports (1, 0), labeled with the identity. *)
Theorem slots_behind_reported_as_zero
    (UnpackRpcErrorData : RPCError → NodeUnhealthyErrorData → option GoError) :
  decodeNodeUnhealthy seven_behind = Some {| NumSlotsBehind := 7 |}
  ∧ (outcome (collectHealth UnpackRpcErrorData
                (example_collector lagging_node)) = Exited
     ∧ sent (trace (collectHealth UnpackRpcErrorData
                      (example_collector lagging_node))) = []
     ∨ sent (trace (collectHealth UnpackRpcErrorData
                      (example_collector lagging_node)))
       = [ConstMetric (NodeIsHealthy (example_collector lagging_node))
            0%Q ["id"];
          ConstMetric (NodeNumSlotsBehind (example_collector lagging_node))
            0%Q ["id"]])
  ∧ sent (trace (collectHealth UnpackRpcErrorData
                   (example_collector lagging_node)))
    ≠ [ConstMetric (NodeIsHealthy (example_collector lagging_node))
         0%Q ["id"];
       ConstMetric (NodeNumSlotsBehind (example_collector lagging_node))
         7%Q ["id"]]
  ∧ sent (trace (collectHealth UnpackRpcErrorData_decode
                   (example_collector lagging_node)))
    = [ConstMetric (NodeIsHealthy (example_collector lagging_node))
         0%Q ["id"];
       ConstMetric (NodeNumSlotsBehind (example_collector lagging_node))
         0%Q ["id"]]
  ∧ sent (trace (collectHealth UnpackRpcErrorData
                   (example_collector healthy_node)))
    = [ConstMetric (NodeIsHealthy (example_collector healthy_node))
         1%Q ["id"];
       ConstMetric (NodeNumSlotsBehind (example_collector healthy_node))
         0%Q ["id"]].
Proof.
  split; [reflexivity|].
  assert (GetHealth lagging_node = Some (node_unhealthy (Some seven_behind)))
    as Hr by reflexivity.
  assert (errors_As (node_unhealthy (Some seven_behind))
          = Some {| Method := "getHealth"; Data := Some seven_behind |})
    as Has by reflexivity.
  destruct (UnpackRpcErrorData
              {| Method := "getHealth"; Data := Some seven_behind |}
              {| NumSlotsBehind := 0 |}) as [err'|] eqn:Hu.
  - pose proof (collectHealth_fatal UnpackRpcErrorData 0 ["A"] [] [] "id"
                  lagging_node _ err' _ seven_behind Hr Has eq_refl Hu) as Hrun.
    unfold example_collector. rewrite Hrun.
    split; [by left|]. split; [done|]. split; reflexivity.
  - pose proof (collectHealth_unpacked UnpackRpcErrorData 0 ["A"] [] [] "id"
                  lagging_node _ _ seven_behind Hr Has eq_refl Hu) as Hrun.
    unfold example_collector. rewrite Hrun.
    split; [by right|]. split; [|split; reflexivity].
    sent_simpl. intros Heq. by vm_compute in Heq.
Qed.

(** ** C8: the set of balance addresses *)

Lemma elem_of_concat (args : list (list string)) (x : string) :
  x ∈ concat args ↔ ∃ l, l ∈ args ∧ x ∈ l.
Proof.
  induction args as [|l args IH]; simpl.
  - split; [by intros ?%elem_of_nil|]. by intros (l & ?%elem_of_nil & _).
  - rewrite elem_of_app, IH. split.
    + intros [Hx|(l' & Hl' & Hx)].
      * exists l. split; [by left|done].
      * exists l'. split; [by right|done].
    + intros (l' & [->|Hl']%elem_of_cons & Hx); [by left|].
      right. by exists l'.
Qed.

Lemma elem_of_CombineUnique (args : list (list string)) (x : string) :
  x ∈ CombineUnique args ↔ ∃ l, l ∈ args ∧ x ∈ l.
Proof. unfold CombineUnique. by rewrite elem_of_remove_dups, elem_of_concat. Qed.

Lemma CombineUnique_same_members (args args' : list (list string)) :
  (∀ x, (∃ l, l ∈ args ∧ x ∈ l) ↔ (∃ l, l ∈ args' ∧ x ∈ l)) →
  address_set (CombineUnique args) = address_set (CombineUnique args')
  ∧ CombineUnique args ≡ₚ CombineUnique args'.
Proof.
  intros Hsame. split.
  - apply set_eq. intros x. unfold address_set.
    by rewrite !elem_of_list_to_set, !elem_of_CombineUnique.
  - apply NoDup_Permutation; [apply NoDup_remove_dups..|].
    intros x. by rewrite !elem_of_CombineUnique.
Qed.

Lemma members_Forall2_Permutation (args args' : list (list string))
    (x : string) :
  Forall2 (≡ₚ) args args' →
  (∃ l, l ∈ args ∧ x ∈ l) ↔ (∃ l, l ∈ args' ∧ x ∈ l).
Proof.
  induction 1 as [|l l' args args' Hl _ IH].
  - split; by intros (l & ?%elem_of_nil & _).
  - split.
    + intros (k & [->|Hk]%elem_of_cons & Hx).
      * exists l'. split; [by left|by rewrite <- Hl].
      * destruct (proj1 IH (ex_intro _ k (conj Hk Hx))) as (k' & Hk' & Hx').
        exists k'. split; [by right|done].
    + intros (k & [->|Hk]%elem_of_cons & Hx).
      * exists l. split; [by left|by rewrite Hl].
      * destruct (proj2 IH (ex_intro _ k (conj Hk Hx))) as (k' & Hk' & Hx').
        exists k'. split; [by right|done].
Qed.

(** C8: [CombineUnique] yields the members of its argument lists, each
    once: the result has no repetition, its members are exactly the members
    of the arguments, its set is the union of the arguments' sets; permuting
    the argument lists, or the elements inside them, changes neither the set
    nor, up to order, the result; arguments that are all empty give the empty
    result; and the lists [A, B], [B, C], [] give the three-element set
    {A, B, C}, in any order and with repetitions. *)
Theorem CombineUnique_is_set_union :
  (∀ args, NoDup (CombineUnique args))
  ∧ (∀ args x, x ∈ CombineUnique args ↔ ∃ l, l ∈ args ∧ x ∈ l)
  ∧ (∀ args, address_set (CombineUnique args) = ⋃ (address_set <$> args))
  ∧ (∀ args args',
       args ≡ₚ args' →
       address_set (CombineUnique args) = address_set (CombineUnique args')
       ∧ CombineUnique args ≡ₚ CombineUnique args')
  ∧ (∀ args args',
       Forall2 (≡ₚ) args args' →
       address_set (CombineUnique args) = address_set (CombineUnique args')
       ∧ CombineUnique args ≡ₚ CombineUnique args')
  ∧ (∀ args, Forall (λ l, l = []) args → CombineUnique args = [])
  ∧ CombineUnique [["A"; "B"]; ["B"; "C"]; []] = ["A"; "B"; "C"]
  ∧ address_set (CombineUnique [["A"; "B"]; ["B"; "C"]; []])
    = {["A"; "B"; "C"]}
  ∧ size (address_set (CombineUnique [["A"; "B"]; ["B"; "C"]; []])) = 3%nat
  ∧ address_set (CombineUnique [[]; ["C"; "B"; "B"]; ["B"; "A"; "A"]; ["C"]])
    = {["A"; "B"; "C"]}.
Proof.
  split; [intros args; apply NoDup_remove_dups|].
  split; [apply elem_of_CombineUnique|].
  split.
  { intros args. apply set_eq. intros x. unfold address_set.
    rewrite elem_of_list_to_set, elem_of_CombineUnique, elem_of_union_list.
    split.
    - intros (l & Hl & Hx). exists (list_to_set l).
      split; [by apply (list_elem_of_fmap_2 list_to_set)|].
      by apply elem_of_list_to_set.
    - intros (X & (l & -> & Hl)%list_elem_of_fmap & Hx).
      exists l. split; [done|]. by apply elem_of_list_to_set in Hx. }
  split.
  { intros args args' Hperm. apply CombineUnique_same_members.
    intros x. split; intros (l & Hl & Hx); exists l.
    - by rewrite <- Hperm.
    - by rewrite Hperm. }
  split.
  { intros args args' Hperm. apply CombineUnique_same_members.
    intros x. by apply members_Forall2_Permutation. }
  split.
  { intros args Hempty. unfold CombineUnique.
    assert (concat args = []) as ->; [|done].
    induction Hempty as [|l args -> _ IH]; [done|]. by simpl. }
  split; [by vm_compute|].
  split; [unfold address_set; by vm_compute|].
  split; [by vm_compute|].
  apply set_eq. intros x. unfold address_set.
  rewrite elem_of_list_to_set, elem_of_CombineUnique. set_unfold.
  split.
  - intros (l & Hl & Hx). destruct_or!; subst l; set_unfold; tauto.
  - intros Hx. destruct_or!; subst x.
    + exists ["B"; "A"; "A"]. set_unfold. tauto.
    + exists ["C"; "B"; "B"]. set_unfold. tauto.
    + exists ["C"]. set_unfold. tauto.
Qed.

Lemma CombineUnique_is_set_union_witness :
  [["A"; "B"]; ["B"; "C"]; []] ≡ₚ [["B"; "C"]; ["A"; "B"]; []]
  ∧ Forall2 (≡ₚ) [["A"; "B"]; ["B"; "C"]; []] [["B"; "A"]; ["C"; "B"]; []]
  ∧ Forall (λ l : list string, l = []) [[]; []; []]
  ∧ address_set (CombineUnique [["A"; "B"]; ["B"; "C"]; []])
    = address_set (CombineUnique [["B"; "C"]; ["A"; "B"]; []])
  ∧ address_set (CombineUnique [["A"; "B"]; ["B"; "C"]; []])
    = address_set (CombineUnique [["B"; "A"]; ["C"; "B"]; []])
  ∧ CombineUnique [[]; []; []] = [].
Proof.
  assert ([["A"; "B"]; ["B"; "C"]; []] ≡ₚ [["B"; "C"]; ["A"; "B"]; []])
    as Hlists by apply perm_swap.
  assert (Forall2 (≡ₚ) [["A"; "B"]; ["B"; "C"]; []]
            [["B"; "A"]; ["C"; "B"]; []]) as Hinside
    by (repeat constructor; apply perm_swap).
  assert (Forall (λ l : list string, l = []) [[]; []; []]) as Hempty
    by (repeat constructor).
  destruct CombineUnique_is_set_union
    as (_ & _ & _ & Hperm & Hperm' & Hnil & _).
  exact (conj Hlists (conj Hinside (conj Hempty
           (conj (proj1 (Hperm _ _ Hlists))
              (conj (proj1 (Hperm' _ _ Hinside)) (Hnil _ Hempty)))))).
Defined.

(** ** Describe, labels, single gauges, balances and the log, on concrete
    scrapes *)

Lemma scrape_within_Describe_witness :
  ConstMetric (NodeVersion (example_collector healthy_node)) 1%Q ["1.18.0"]
  ∈ sent (trace (example_scrape healthy_node))
  ∧ NodeVersion (example_collector healthy_node)
    ∈ Describe (example_collector healthy_node).
Proof.
  assert (ConstMetric (NodeVersion (example_collector healthy_node)) 1%Q
            ["1.18.0"]
          ∈ sent (trace (example_scrape healthy_node))) as Hin.
  { rewrite scrape_of_healthy_node. cbv zeta.
    do 6 apply list_elem_of_further. apply list_elem_of_here. }
  destruct (scrape_within_Describe static_FetchBalances
              UnpackRpcErrorData_decode 0 ["A"] [] [] "id" healthy_node)
    as (Hdesc & _ & _).
  exact (conj Hin (Hdesc _ Hin)).
Defined.

Lemma samples_well_labelled_witness :
  undecodable UnpackRpcErrorData_decode (GetHealth drifted_node) = true
  ∧ outcome (example_scrape drifted_node) = Exited
  ∧ Forall well_labelled (sent (trace (example_scrape drifted_node))).
Proof.
  assert (undecodable UnpackRpcErrorData_decode (GetHealth drifted_node)
          = true) as Hu by reflexivity.
  destruct (samples_well_labelled static_FetchBalances
              UnpackRpcErrorData_decode 0 ["A"] [] [] "id" drifted_node)
    as (Hwell & Hexit).
  exact (conj Hu (conj (proj2 Hexit Hu) Hwell)).
Defined.

Lemma version_observation_witness :
  GetVersion healthy_node = Ok "1.18.0"
  ∧ GetVersion all_down_node = Err connection_refused
  ∧ of_family "solana_node_version"
      (sent (trace (example_scrape healthy_node)))
    = [ConstMetric (NodeVersion (example_collector healthy_node)) 1%Q
         ["1.18.0"]]
  ∧ of_family "solana_node_version"
      (sent (trace (example_scrape all_down_node)))
    = [InvalidMetric (NodeVersion (example_collector all_down_node))
         connection_refused].
Proof.
  assert (GetVersion healthy_node = Ok "1.18.0") as Hok by reflexivity.
  assert (GetVersion all_down_node = Err connection_refused) as Herr
    by reflexivity.
  exact (conj Hok (conj Herr
    (conj (proj1 (version_observation static_FetchBalances
                    UnpackRpcErrorData_decode 0 ["A"] [] [] "id"
                    healthy_node) _ Hok)
          (proj2 (version_observation static_FetchBalances
                    UnpackRpcErrorData_decode 0 ["A"] [] [] "id"
                    all_down_node) _ Herr)))).
Defined.

Lemma ledger_bounds_observations_witness :
  undecodable UnpackRpcErrorData_decode (GetHealth healthy_node) = false
  ∧ GetMinimumLedgerSlot healthy_node = Ok 7
  ∧ GetFirstAvailableBlock healthy_node = Ok 3
  ∧ undecodable UnpackRpcErrorData_decode (GetHealth drifted_node) = true
  ∧ of_family "solana_node_minimum_ledger_slot"
      (sent (trace (example_scrape healthy_node)))
    = [ConstMetric (NodeMinimumLedgerSlot (example_collector healthy_node))
         7%Q ["id"]]
  ∧ of_family "solana_node_first_available_block"
      (sent (trace (example_scrape healthy_node)))
    = [ConstMetric (NodeFirstAvailableBlock (example_collector healthy_node))
         3%Q ["id"]]
  ∧ of_family "solana_node_minimum_ledger_slot"
      (sent (trace (example_scrape drifted_node))) = []
  ∧ of_family "solana_node_first_available_block"
      (sent (trace (example_scrape drifted_node))) = [].
Proof.
  assert (undecodable UnpackRpcErrorData_decode (GetHealth healthy_node)
          = false) as Hu by reflexivity.
  assert (GetMinimumLedgerSlot healthy_node = Ok 7) as Hslot by reflexivity.
  assert (GetFirstAvailableBlock healthy_node = Ok 3) as Hblock
    by reflexivity.
  assert (undecodable UnpackRpcErrorData_decode (GetHealth drifted_node)
          = true) as Hu' by reflexivity.
  destruct (ledger_bounds_observations static_FetchBalances
              UnpackRpcErrorData_decode 0 ["A"] [] [] "id" healthy_node)
    as (Hruns & _).
  destruct (Hruns Hu) as (Hmin & _ & Hfirst & _).
  destruct (ledger_bounds_observations static_FetchBalances
              UnpackRpcErrorData_decode 0 ["A"] [] [] "id" drifted_node)
    as (_ & Hexits).
  destruct (Hexits Hu') as (Hmin' & Hfirst').
  exact (conj Hu (conj Hslot (conj Hblock (conj Hu'
           (conj (Hmin 7 Hslot) (conj (Hfirst 3 Hblock)
              (conj Hmin' Hfirst'))))))).
Defined.

Lemma balances_observations_witness :
  static_FetchBalances healthy_node (CombineUnique [["A"]; []; []])
  = Ok [("A", (5 # 2)%Q)]
  ∧ static_FetchBalances all_down_node (CombineUnique [["A"]; []; []])
    = Err connection_refused
  ∧ of_family "solana_account_balance"
      (sent (trace (example_scrape healthy_node)))
    = [ConstMetric (AccountBalances (example_collector healthy_node))
         (5 # 2)%Q ["A"]]
  ∧ of_family "solana_account_balance"
      (sent (trace (example_scrape all_down_node)))
    = [InvalidMetric (AccountBalances (example_collector all_down_node))
         connection_refused].
Proof.
  assert (static_FetchBalances healthy_node (CombineUnique [["A"]; []; []])
          = Ok [("A", (5 # 2)%Q)]) as Hok by reflexivity.
  assert (static_FetchBalances all_down_node (CombineUnique [["A"]; []; []])
          = Err connection_refused) as Herr by reflexivity.
  destruct (balances_observations static_FetchBalances
              UnpackRpcErrorData_decode 0 ["A"] [] [] "id" healthy_node)
    as (Hsamples & _ & _).
  destruct (balances_observations static_FetchBalances
              UnpackRpcErrorData_decode 0 ["A"] [] [] "id" all_down_node)
    as (_ & Hsentinel & _).
  exact (conj Hok (conj Herr
           (conj (proj1 (Hsamples _ Hok)) (Hsentinel _ Herr)))).
Defined.

Lemma scrape_log_witness :
  undecodable UnpackRpcErrorData_decode (GetHealth votes_down_node) = false
  ∧ undecodable UnpackRpcErrorData_decode (GetHealth drifted_node) = true
  ∧ logs (trace (example_scrape votes_down_node))
    = [(ErrorLevel, "failed to get vote accounts: %v",
        [ArgError connection_refused])]
  ∧ ∃ rpcError err',
      logs (trace (example_scrape drifted_node))
      = [(FatalLevel, "failed to unpack %s rpc error: %v",
          [ArgString (Method rpcError); ArgError err'])].
Proof.
  assert (undecodable UnpackRpcErrorData_decode (GetHealth votes_down_node)
          = false) as Hu by reflexivity.
  assert (undecodable UnpackRpcErrorData_decode (GetHealth drifted_node)
          = true) as Hu' by reflexivity.
  exact (conj Hu (conj Hu'
    (conj (proj1 (scrape_log static_FetchBalances UnpackRpcErrorData_decode
                    0 ["A"] [] [] "id" votes_down_node) Hu)
          (proj2 (scrape_log static_FetchBalances UnpackRpcErrorData_decode
                    0 ["A"] [] [] "id" drifted_node) Hu')))).
Defined.

(** ** The health sub-collection and the silent node, on concrete scrapes *)

Lemma healthy_node_observations_witness :
  GetHealth healthy_node = None
  ∧ of_family "solana_node_is_healthy"
      (sent (trace (example_scrape healthy_node)))
    = [ConstMetric (NodeIsHealthy (example_collector healthy_node)) 1%Q
         ["id"]]
  ∧ of_family "solana_node_num_slots_behind"
      (sent (trace (example_scrape healthy_node)))
    = [ConstMetric (NodeNumSlotsBehind (example_collector healthy_node)) 0%Q
         ["id"]].
Proof.
  assert (GetHealth healthy_node = None) as Hr by reflexivity.
  destruct (healthy_node_observations static_FetchBalances
              UnpackRpcErrorData_decode 0 ["A"] [] [] "id" healthy_node Hr)
    as (Hhealthy & Hbehind & _).
  exact (conj Hr (conj Hhealthy Hbehind)).
Defined.

Lemma unhealthy_node_reported_witness :
  GetHealth lagging_node = Some (node_unhealthy (Some seven_behind))
  ∧ errors_As (node_unhealthy (Some seven_behind))
    = Some {| Method := "getHealth"; Data := Some seven_behind |}
  ∧ UnpackRpcErrorData_decode
      {| Method := "getHealth"; Data := Some seven_behind |}
      {| NumSlotsBehind := 0 |} = None
  ∧ outcome (example_scrape lagging_node) = Returned tt
  ∧ of_family "solana_node_is_healthy"
      (sent (trace (example_scrape lagging_node)))
    = [ConstMetric (NodeIsHealthy (example_collector lagging_node)) 0%Q
         ["id"]].
Proof.
  assert (GetHealth lagging_node = Some (node_unhealthy (Some seven_behind)))
    as Hr by reflexivity.
  assert (errors_As (node_unhealthy (Some seven_behind))
          = Some {| Method := "getHealth"; Data := Some seven_behind |})
    as Has by reflexivity.
  assert (UnpackRpcErrorData_decode
            {| Method := "getHealth"; Data := Some seven_behind |}
            {| NumSlotsBehind := 0 |} = None) as Hu by reflexivity.
  destruct (unhealthy_node_reported static_FetchBalances
              UnpackRpcErrorData_decode 0 ["A"] [] [] "id" lagging_node
              _ _ seven_behind Hr Has eq_refl Hu) as (Hout & Hhealthy & _).
  exact (conj Hr (conj Has (conj Hu (conj Hout Hhealthy)))).
Defined.

Lemma all_queries_fail_witness :
  (∀ k, failure static_FetchBalances all_down_node
          (balanceAddresses (example_collector all_down_node)) k ≠ None)
  ∧ outcome (example_scrape all_down_node) = Returned tt
  ∧ length (sent (trace (example_scrape all_down_node))) = 11%nat
  ∧ Desc <$> sent (trace (example_scrape all_down_node))
    ≡ₚ Describe (example_collector all_down_node).
Proof.
  assert (∀ k, failure static_FetchBalances all_down_node
                 (balanceAddresses (example_collector all_down_node)) k
               ≠ None) as Hall by (intros k; by destruct k).
  destruct (all_queries_fail static_FetchBalances UnpackRpcErrorData_decode
              0 ["A"] [] [] "id" all_down_node Hall)
    as (Hout & _ & Hlen & Hperm).
  exact (conj Hall (conj Hout (conj Hlen Hperm))).
Defined.

(** ** Process start, on concrete starts *)

Lemma main_fails_fast_witness :
  (∃ votekeys,
     Ok ["V1"] = Ok votekeys
     ∧ (Err connection_refused : Result string) = Err connection_refused)
  ∧ anonymous_main.2 = Main.Exits
  ∧ Main.registered anonymous_main.1 = []
  ∧ Forall (λ s, Main.goes_live s = false) anonymous_main.1.
Proof.
  assert (∃ votekeys,
            Ok ["V1"] = Ok votekeys
            ∧ (Err connection_refused : Result string)
              = Err connection_refused) as Hstart
    by (exists ["V1"]; split; reflexivity).
  destruct (main_fails_fast example_config (λ _ _, healthy_node)
              (λ _ _ _, Ok ["V1"]) (λ _, Err connection_refused) 0
              (λ _, None) connection_refused (or_intror Hstart))
    as (Hexit & Hquiet & Hnone & _).
  exact (conj Hstart (conj Hexit (conj Hnone Hquiet))).
Defined.

Lemma main_goes_live_witness :
  Main.registered example_main.1
  = [NewSolanaCollector healthy_node 0 ["A"] ["N1"] ["V1"] "id"]
  ∧ example_main.2 = Main.Serves.
Proof.
  destruct (main_goes_live example_config (λ _ _, healthy_node)
              (λ _ _ _, Ok ["V1"]) (λ _, Ok "id") 0 (λ _, None)
              ["V1"] "id" eq_refl eq_refl) as (_ & Hreg & Hserves & _).
  exact (conj Hreg (proj2 Hserves eq_refl)).
Defined.

Lemma registered_collector_scrapes_witness :
  NewSolanaCollector healthy_node 0 ["A"] ["N1"] ["V1"] "id"
  ∈ Main.registered example_main.1
  ∧ NoDup (Name <$> Describe
             (NewSolanaCollector healthy_node 0 ["A"] ["N1"] ["V1"] "id")).
Proof.
  assert (NewSolanaCollector healthy_node 0 ["A"] ["N1"] ["V1"] "id"
          ∈ Main.registered example_main.1) as Hin
    by apply list_elem_of_here.
  destruct (registered_collector_scrapes static_FetchBalances
              UnpackRpcErrorData_decode example_config (λ _ _, healthy_node)
              (λ _ _ _, Ok ["V1"]) (λ _, Ok "id") 0 (λ _, None) _ Hin)
    as (_ & _ & Hnd & _).
  exact (conj Hin Hnd).
Defined.

Lemma all_queries_succeed_witness :
  GetVoteAccounts healthy_node CommitmentConfirmed None = Ok one_current
  ∧ GetVersion healthy_node = Ok "1.18.0"
  ∧ static_FetchBalances healthy_node
      (balanceAddresses (example_collector healthy_node))
    = Ok [("A", (5 # 2)%Q)]
  ∧ GetHealth healthy_node = None
  ∧ GetMinimumLedgerSlot healthy_node = Ok 7
  ∧ GetFirstAvailableBlock healthy_node = Ok 3
  ∧ outcome (example_scrape healthy_node) = Returned tt
  ∧ length (sent (trace (example_scrape healthy_node))) = 12%nat.
Proof.
  assert (GetVoteAccounts healthy_node CommitmentConfirmed None
          = Ok one_current) as Hva by reflexivity.
  assert (GetVersion healthy_node = Ok "1.18.0") as Hver by reflexivity.
  assert (static_FetchBalances healthy_node
            (balanceAddresses (example_collector healthy_node))
          = Ok [("A", (5 # 2)%Q)]) as Hbal by reflexivity.
  assert (GetHealth healthy_node = None) as Hh by reflexivity.
  assert (GetMinimumLedgerSlot healthy_node = Ok 7) as Hmin by reflexivity.
  assert (GetFirstAvailableBlock healthy_node = Ok 3) as Hfirst
    by reflexivity.
  destruct (all_queries_succeed static_FetchBalances UnpackRpcErrorData_decode
              0 ["A"] [] [] "id" healthy_node _ _ _ _ _
              Hva Hver Hbal Hh Hmin Hfirst) as (Hout & _ & Hlen).
  exact (conj Hva (conj Hver (conj Hbal (conj Hh (conj Hmin (conj Hfirst
           (conj Hout Hlen))))))).
Defined.
